(** * kcauto-kai config editor: the config actions and reducers

    A shallow embedding of the two source files of the documentation site's
    config generator:

    - the action creators ([setJsonConfig], [setPythonConfig]), where
      [setPythonConfig] turns the form state (a flat JavaScript object) into
      the lines of the INI-style config file;
    - the reducers [jsonConfig] and [pythonConfig] of
      [reducers/config/config.jsx].

    JavaScript objects are finite maps from property names to values,
    exceptions are an explicit completion type, and the mutation of the local
    object [configTemp] is state passing. *)

From stdpp Require Import base strings gmap list pretty.
From Stdlib Require Import ZArith.

Open Scope string_scope.

(** ** The fragment of JavaScript the sources use *)

Module JS.

(** Numbers, as far as the sources observe them: by their truthiness and by
    their string form.  [Finite negative s n] is the number of magnitude
    [s * 10^(n - k)], where [k] is the count of decimal digits of [s]: the
    triple (n, k, s) of Number::toString, up to trailing zeros of [s].  The two
    zeros are one value, they print the same and are both falsy. *)
Inductive number :=
| NaN
| Infinity (negative : bool)
| Zero
| Finite (negative : bool) (s : positive) (n : Z).

(** The integer [z] as a number. *)
Definition Int (z : Z) : number :=
  match z with
  | Z0 => Zero
  | Zpos p => Finite false p (Z.of_nat (String.length (pretty (Npos p))))
  | Zneg p => Finite true p (Z.of_nat (String.length (pretty (Npos p))))
  end.

(** A [Date] object, reduced to what the sources observe of it: the results
    of [getHours()] and [getMinutes()], and the text [toString()] gives
    (which depends on the day and the time zone, so it is carried as data). *)
Record Date := mkDate {
  getHours : number;
  getMinutes : number;
  dateString : string
}.

Inductive value :=
| Undefined
| Null
| Boolean (b : bool)
| Str (s : string)
| Num (n : number)
| DateObj (d : Date).

(** A plain object used as a record: own properties by name. *)
Abbreviation object := (gmap string value).

(** Property access [o.k] / [o[k]] for an own property, or for a name that
    is on no prototype: a missing property reads [undefined].  (The sources
    read the keys that [Object.keys] lists and fixed field names.) *)
Definition get (o : object) (k : string) : value :=
  default Undefined (o !! k).

(** [Object.keys(o)].  The order of the keys differs from JavaScript's, the
    keys are the same and pairwise distinct. *)
Definition keys (o : object) : list string := (map_to_list o).*1.

(** ToBoolean, as applied by [? :], [!], [&&], [||] and [if]. *)
Definition truthy (v : value) : bool :=
  match v with
  | Undefined | Null => false
  | Boolean b => b
  | Str s => negb (String.eqb s "")
  | Num NaN | Num Zero => false
  | Num (Infinity _) | Num (Finite _ _ _) => true
  | DateObj _ => true
  end.

(** [a && b] evaluates to [a] when [a] is falsy and to [b] otherwise. *)
Definition and_ (a b : value) : value := if truthy a then b else a.

(** The character [0], a run of [n] zeros, and a digit string without its
    trailing zeros. *)
Definition zeroChar : Ascii.ascii := Ascii.ascii_of_nat 48.

Fixpoint zeros (n : nat) : string :=
  match n with
  | O => EmptyString
  | S n => String zeroChar (zeros n)
  end.

Fixpoint stripZeros (digits : string) : string :=
  match digits with
  | EmptyString => EmptyString
  | String c rest =>
      match stripZeros rest with
      | EmptyString => if Ascii.eqb c zeroChar then EmptyString else String c EmptyString
      | rest' => String c rest'
      end
  end.

(** Number::toString for a positive finite number [s * 10^(n - k)]: plain
    digits with zeros appended, digits with a decimal point, [0.] with zeros
    and the digits, or the exponent form outside [1e-6 .. 1e21). *)
Definition finiteToString (s : positive) (n : Z) : string :=
  let digits := stripZeros (pretty (Npos s)) in
  let k := Z.of_nat (String.length digits) in
  if ((k <=? n) && (n <=? 21))%Z then digits ++ zeros (Z.to_nat (n - k))
  else if ((0 <? n) && (n <=? 21))%Z then
    String.substring 0 (Z.to_nat n) digits ++ "."
    ++ String.substring (Z.to_nat n) (Z.to_nat (k - n)) digits
  else if ((-6 <? n) && (n <=? 0))%Z then "0." ++ zeros (Z.to_nat (- n)) ++ digits
  else
    let exponent := (if (0 <=? n - 1)%Z then "+" else "-") ++ pretty (Z.abs (n - 1)) in
    if (k =? 1)%Z then digits ++ "e" ++ exponent
    else
      String.substring 0 1 digits ++ "."
      ++ String.substring 1 (Z.to_nat (k - 1)) digits ++ "e" ++ exponent.

(** [String(n)] for a number. *)
Definition numberToString (n : number) : string :=
  match n with
  | NaN => "NaN"
  | Infinity false => "Infinity"
  | Infinity true => "-Infinity"
  | Zero => "0"
  | Finite negative s n => (if negative then "-" else "") ++ finiteToString s n
  end.

(** ToString, as applied by a template literal's [${...}]. *)
Definition ToString (v : value) : string :=
  match v with
  | Undefined => "undefined"
  | Null => "null"
  | Boolean true => "true"
  | Boolean false => "false"
  | Str s => s
  | Num n => numberToString n
  | DateObj d => dateString d
  end.

(** [s.padStart(targetLength, padString)] (lengths counted in characters of
    the Rocq string; the sources only pad decimal digits). *)
Definition padStart (targetLength : nat) (padString : string) (s : string) : string :=
  let stringLength := String.length s in
  if (targetLength <=? stringLength)%nat then s
  else if String.eqb padString "" then s
  else
    let fillLen := (targetLength - stringLength)%nat in
    String.substring 0 fillLen (String.concat "" (replicate fillLen padString)) ++ s.

(** An assignment [o[key] = v] on an object created by [{}], with the
    mutated object as the result.  The name [__proto__] is the accessor
    inherited from [Object.prototype]: its setter creates no own property (it
    replaces the prototype when [v] is an object, and the prototype of a Date
    has none of the names the sources read). *)
Definition assign (o : object) (key : string) (v : value) : object :=
  if decide (key = "__proto__") then o else <[key := v]> o.

(** [a.push(x)], with the mutated array as the result. *)
Definition push {A} (a : list A) (x : A) : list A := (a ++ [x])%list.

(** [a.join(sep)] on an array of strings. *)
Definition join (sep : string) (a : list string) : string := String.concat sep a.

(** Exceptions and completions. *)
Inductive exn := TypeError.

Inductive completion (A : Type) :=
| Return (a : A)
| Throw (e : exn).
Arguments Return {A} a.
Arguments Throw {A} e.

#[global] Instance completion_ret : MRet completion := @Return.
#[global] Instance completion_bind : MBind completion := λ A B f c,
  match c with
  | Return a => f a
  | Throw e => Throw e
  end.

(** A call [v.m()] of one of the two [Date] methods on an arbitrary value:
    on [undefined] and [null] the property access throws, on the other
    non-Date values the property is [undefined] and the call throws. *)
Definition callDateMethod (m : Date → number) (v : value) : completion number :=
  match v with
  | DateObj d => Return (m d)
  | _ => Throw TypeError
  end.

End JS.

Import JS.

(** What a Redux action carries in its [config] property and what the two
    reducers hold as state: a ConfigRecord, the array of config lines, or
    nothing ([undefined]). *)
Inductive data :=
| DUndefined
| DRecord (o : object)
| DLines (l : list string).

(** An action object [{ type, config }].  The action type constants come from
    the module ['types/'], which is not among the sources: they are parameters
    of an arbitrary type with decidable equality. *)
Record action (actionType : Type) := mkAction {
  type : actionType;
  config : data
}.
Arguments mkAction {actionType} type config.
Arguments type {actionType} a.
Arguments config {actionType} a.

(** ** actions: [setJsonConfig] and [setPythonConfig] *)

Module Actions.

Section WithTypes.
Context {actionType : Type}.
Variables SET_JSON_CONFIG SET_PYTHON_CONFIG : actionType.

Definition setJsonConfigSuccess (config : object) : action actionType :=
  {| type := SET_JSON_CONFIG; config := DRecord config |}.

Definition setJsonConfig {R} (config : object) (dispatch : action actionType → R) : R :=
  dispatch (setJsonConfigSuccess config).

Definition setPythonConfigSuccess (config : list string) : action actionType :=
  {| type := SET_PYTHON_CONFIG; config := DLines config |}.

(** The callback of [Object.keys(config).reduce(..., {})]. *)
Definition configTemp_step (config : object) (configTemp : object) (key : string) : object :=
  let temp := configTemp in
  match get config key with
  | Boolean true => assign temp key (Str "True")
  | Boolean false => assign temp key (Str "False")
  | Null => assign temp key (Str "")
  | v => assign temp key v
  end.

Definition configTemp (config : object) : object :=
  foldl (configTemp_step config) ∅ (keys config).

(** [v ? `${String(v.getHours()).padStart(2, '0')}` +
         `${String(v.getMinutes()).padStart(2, '0')}` : ''],
    the expression of the four time-of-day constants. *)
Definition hhmm (v : value) : completion string :=
  if truthy v then
    h ← callDateMethod getHours v;
    m ← callDateMethod getMinutes v;
    mret (padStart 2 "0" (numberToString h) ++ padStart 2 "0" (numberToString m))
  else mret "".

(** [configTemp.n1 && configTemp.n2 ? `${configTemp.n1},${configTemp.n2}` : ''],
    the expression of the three LBAS group constants. *)
Definition lbasNodes (configTemp : object) (n1 n2 : string) : string :=
  if truthy (and_ (get configTemp n1) (get configTemp n2))
  then ToString (get configTemp n1) ++ "," ++ ToString (get configTemp n2)
  else "".

(** The four [if (config.combatOption...) combatOptions.push(...)]. *)
Definition combatOptions (config : object) : list string :=
  let combatOptions := [] in
  let combatOptions :=
    if truthy (get config "combatOptionCheckFatigue")
    then push combatOptions "CheckFatigue" else combatOptions in
  let combatOptions :=
    if truthy (get config "combatOptionReserveDocks")
    then push combatOptions "ReserveDocks" else combatOptions in
  let combatOptions :=
    if truthy (get config "combatOptionPortCheck")
    then push combatOptions "PortCheck" else combatOptions in
  let combatOptions :=
    if truthy (get config "combatOptionClearStop")
    then push combatOptions "ClearStop" else combatOptions in
  combatOptions.

(** [if (!configTemp.c || !configTemp.s) { configTemp.c = ''; configTemp.s = '' }],
    one ship-switcher slot; the assignments to [configTemp] are the
    returned object. *)
Definition blankSlot (criteria ships : string) (configTemp : object) : object :=
  if negb (truthy (get configTemp criteria)) || negb (truthy (get configTemp ships))
  then <[ships := Str ""]> (<[criteria := Str ""]> configTemp)
  else configTemp.

Definition blankSlots (configTemp : object) : object :=
  let configTemp := blankSlot "shipSwitcherSlot1Criteria" "shipSwitcherSlot1Ships" configTemp in
  let configTemp := blankSlot "shipSwitcherSlot2Criteria" "shipSwitcherSlot2Ships" configTemp in
  let configTemp := blankSlot "shipSwitcherSlot3Criteria" "shipSwitcherSlot3Ships" configTemp in
  let configTemp := blankSlot "shipSwitcherSlot4Criteria" "shipSwitcherSlot4Ships" configTemp in
  let configTemp := blankSlot "shipSwitcherSlot5Criteria" "shipSwitcherSlot5Ships" configTemp in
  let configTemp := blankSlot "shipSwitcherSlot6Criteria" "shipSwitcherSlot6Ships" configTemp in
  configTemp.

(** The array literal [pythonConfig], over the local constants it reads. *)
Definition pythonConfig (configTemp : object)
    (scheduledSleepSleepStartTime scheduledSleepExpeditionSleepStartTime
     scheduledSleepCombatSleepStartTime combatRepairTimeLimit
     combatLBASGroup1Nodes combatLBASGroup2Nodes combatLBASGroup3Nodes : string)
    (combatOptions : list string) : list string :=
  let f := λ k, ToString (get configTemp k) in
  [ "[General]";
    "Program: " ++ f "generalProgram";
    "JSTOffset: " ++ f "generalJSTOffset";
    "Pause: " ++ f "generalPause";
    "";
    "[ScheduledSleep]";
    "SleepEnabled: " ++ f "scheduledSleepSleepEnabled";
    "SleepStartTime: " ++ scheduledSleepSleepStartTime;
    "SleepLength: " ++ f "scheduledSleepSleepLength";
    "ExpeditionSleepEnabled: " ++ f "scheduledSleepExpeditionSleepEnabled";
    "ExpeditionSleepStartTime: " ++ scheduledSleepExpeditionSleepStartTime;
    "ExpeditionSleepLength: " ++ f "scheduledSleepExpeditionSleepLength";
    "CombatSleepEnabled: " ++ f "scheduledSleepCombatSleepEnabled";
    "CombatSleepStartTime: " ++ scheduledSleepCombatSleepStartTime;
    "CombatSleepLength: " ++ f "scheduledSleepCombatSleepLength";
    "";
    "[Expeditions]";
    "Enabled: " ++ f "expeditionsEnabled";
    "Fleet2: " ++ f "expeditionsFleet2";
    "Fleet3: " ++ f "expeditionsFleet3";
    "Fleet4: " ++ f "expeditionsFleet4";
    "";
    "[PvP]";
    "Enabled: " ++ f "pvpEnabled";
    "";
    "[Combat]";
    "Enabled: " ++ f "combatEnabled";
    "Engine: " ++ f "combatEngine";
    "Map: " ++ f "combatMap";
    "FleetMode: " ++ f "combatFleetMode";
    "CombatNodes: " ++ f "combatCombatNodes";
    "NodeSelects: " ++ f "combatNodeSelects";
    "Formations: " ++ f "combatFormations";
    "NightBattles: " ++ f "combatNightBattles";
    "RetreatLimit: " ++ f "combatRetreatLimit";
    "RepairLimit: " ++ f "combatRepairLimit";
    "RepairTimeLimit: " ++ combatRepairTimeLimit;
    "LBASGroups: " ++ f "combatLBASGroups";
    "LBASGroup1Nodes: " ++ combatLBASGroup1Nodes;
    "LBASGroup2Nodes: " ++ combatLBASGroup2Nodes;
    "LBASGroup3Nodes: " ++ combatLBASGroup3Nodes;
    "ForceRetreatNodes: " ++ f "combatForceRetreatNodes";
    "MiscOptions: " ++ join "," combatOptions;
    "";
    "[ShipSwitcher]";
    "Enabled: " ++ f "shipSwitcherEnabled";
    "Slot1Criteria: " ++ f "shipSwitcherSlot1Criteria";
    "Slot1Ships: " ++ f "shipSwitcherSlot1Ships";
    "Slot2Criteria: " ++ f "shipSwitcherSlot2Criteria";
    "Slot2Ships: " ++ f "shipSwitcherSlot2Ships";
    "Slot3Criteria: " ++ f "shipSwitcherSlot3Criteria";
    "Slot3Ships: " ++ f "shipSwitcherSlot3Ships";
    "Slot4Criteria: " ++ f "shipSwitcherSlot4Criteria";
    "Slot4Ships: " ++ f "shipSwitcherSlot4Ships";
    "Slot5Criteria: " ++ f "shipSwitcherSlot5Criteria";
    "Slot5Ships: " ++ f "shipSwitcherSlot5Ships";
    "Slot6Criteria: " ++ f "shipSwitcherSlot6Criteria";
    "Slot6Ships: " ++ f "shipSwitcherSlot6Ships";
    "";
    "[Quests]";
    "Enabled: " ++ f "questsEnabled" ].

(** [setPythonConfig(config)(dispatch)]. *)
Definition setPythonConfig {R} (config : object) (dispatch : action actionType → R)
    : completion R :=
  let configTemp := configTemp config in
  scheduledSleepSleepStartTime ← hhmm (get config "scheduledSleepSleepStartTime");
  scheduledSleepExpeditionSleepStartTime ←
    hhmm (get config "scheduledSleepExpeditionSleepStartTime");
  scheduledSleepCombatSleepStartTime ←
    hhmm (get config "scheduledSleepCombatSleepStartTime");
  combatRepairTimeLimit ← hhmm (get config "combatRepairTimeLimit");
  let combatLBASGroup1Nodes :=
    lbasNodes configTemp "combatLBASGroup1Node1" "combatLBASGroup1Node2" in
  let combatLBASGroup2Nodes :=
    lbasNodes configTemp "combatLBASGroup2Node1" "combatLBASGroup2Node2" in
  let combatLBASGroup3Nodes :=
    lbasNodes configTemp "combatLBASGroup3Node1" "combatLBASGroup3Node2" in
  let combatOptions := combatOptions config in
  let configTemp := blankSlots configTemp in
  let pythonConfig :=
    pythonConfig configTemp
      scheduledSleepSleepStartTime scheduledSleepExpeditionSleepStartTime
      scheduledSleepCombatSleepStartTime combatRepairTimeLimit
      combatLBASGroup1Nodes combatLBASGroup2Nodes combatLBASGroup3Nodes
      combatOptions in
  mret (dispatch (setPythonConfigSuccess pythonConfig)).

End WithTypes.

End Actions.

(** ** reducers/config/config.jsx *)

Module Reducers.

(** What the defaults table reads from the browser when the module is
    loaded: the JST offset and the four Date objects, each whatever the
    browser's clock, time zone and calendar make of its expression. *)
Record environment := mkEnvironment {
  (** [-((new Date().getTimezoneOffset() / 60) + 9)] *)
  defaultJSTOffset : number;
  (** [new Date(new Date().setHours(0, 0, 0, 0))], evaluated three times *)
  defaultSleepStartTime : Date;
  defaultExpeditionSleepStartTime : Date;
  defaultCombatSleepStartTime : Date;
  (** [new Date(new Date().setHours(0, 30, 0, 0))] *)
  defaultRepairTimeLimit : Date
}.

Section WithTypes.
Context {actionType : Type} `{EqDecision actionType}.
Variables SET_JSON_CONFIG SET_PYTHON_CONFIG : actionType.

Variable env : environment.

Definition jsonConfigDefaults : object :=
  list_to_map [
    ("dropzoneActive", Boolean false);
    ("generalProgram", Str "Chrome");
    ("generalJSTOffset", Num (defaultJSTOffset env));
    ("generalPause", Boolean false);
    ("scheduledSleepSleepEnabled", Boolean true);
    ("scheduledSleepSleepStartTime", DateObj (defaultSleepStartTime env));
    ("scheduledSleepSleepLength", Str "4");
    ("scheduledSleepExpeditionSleepEnabled", Boolean false);
    ("scheduledSleepExpeditionSleepStartTime",
       DateObj (defaultExpeditionSleepStartTime env));
    ("scheduledSleepExpeditionSleepLength", Str "3");
    ("scheduledSleepCombatSleepEnabled", Boolean false);
    ("scheduledSleepCombatSleepStartTime", DateObj (defaultCombatSleepStartTime env));
    ("scheduledSleepCombatSleepLength", Str "5");
    ("expeditionsEnabled", Boolean true);
    ("expeditionsFleet2Enabled", Boolean true);
    ("expeditionsFleet3Enabled", Boolean true);
    ("expeditionsFleet4Enabled", Boolean true);
    ("expeditionsFleet2", Str "2");
    ("expeditionsFleet3", Str "5");
    ("expeditionsFleet4", Str "38");
    ("pvpEnabled", Boolean true);
    ("combatEnabled", Boolean false);
    ("combatEngine", Str "live");
    ("combatMap", Str "1-1");
    ("combatFleetMode", Str "");
    ("combatCombatNodes", Null);
    ("combatNodeSelect1", Null);
    ("combatNodeSelect2", Null);
    ("combatNodeSelects", Null);
    ("combatFormationsNode", Null);
    ("combatFormationsFormation", Null);
    ("combatFormations", Null);
    ("combatNightBattlesNode", Null);
    ("combatNightBattlesMode", Null);
    ("combatNightBattles", Null);
    ("combatRetreatLimit", Str "heavy");
    ("combatRepairLimit", Str "moderate");
    ("combatRepairTimeLimit", DateObj (defaultRepairTimeLimit env));
    ("combatLBASGroups", Null);
    ("combatLBASGroup1Node1", Null);
    ("combatLBASGroup1Node2", Null);
    ("combatLBASGroup2Node1", Null);
    ("combatLBASGroup2Node2", Null);
    ("combatLBASGroup3Node1", Null);
    ("combatLBASGroup3Node2", Null);
    ("combatForceRetreatNodes", Null);
    ("combatOptionCheckFatigue", Boolean false);
    ("combatOptionReserveDocks", Boolean false);
    ("combatOptionPortCheck", Boolean false);
    ("combatOptionClearStop", Boolean false);
    ("shipSwitcherEnabled", Boolean false);
    ("shipSwitcherSlot1Criteria", Null);
    ("shipSwitcherSlot1Ships", Null);
    ("shipSwitcherSlot2Criteria", Null);
    ("shipSwitcherSlot2Ships", Null);
    ("shipSwitcherSlot3Criteria", Null);
    ("shipSwitcherSlot3Ships", Null);
    ("shipSwitcherSlot4Criteria", Null);
    ("shipSwitcherSlot4Ships", Null);
    ("shipSwitcherSlot5Criteria", Null);
    ("shipSwitcherSlot5Ships", Null);
    ("shipSwitcherSlot6Criteria", Null);
    ("shipSwitcherSlot6Ships", Null);
    ("questsEnabled", Boolean true)
  ].

(** A default parameter [state = d] takes [d] when the argument is
    [undefined]. *)
Definition defaultParam (d : data) (state : data) : data :=
  match state with
  | DUndefined => d
  | _ => state
  end.

Definition jsonConfig (state : data) (action : action actionType) : data :=
  let state := defaultParam (DRecord jsonConfigDefaults) state in
  if decide (type action = SET_JSON_CONFIG) then config action
  else state.

Definition pythonConfig (state : data) (action : action actionType) : data :=
  let state := defaultParam (DLines []) state in
  if decide (type action = SET_PYTHON_CONFIG) then config action
  else state.

End WithTypes.

End Reducers.

(** ** Vocabulary of the properties *)

(** The value the general pass stores for a field holding [v]: the [switch]
    of [configTemp_step]. *)
Definition normalize (v : value) : value :=
  match v with
  | Boolean true => Str "True"
  | Boolean false => Str "False"
  | Null => Str ""
  | v => v
  end.

(** A time-of-day field the code can format: a [Date], or a falsy value
    ([undefined], [null], [false], [''], [0], [NaN]), for which the [? :]
    takes the [''] branch. *)
Definition timeFieldOk (v : value) : bool :=
  match v with
  | DateObj _ => true
  | v => negb (truthy v)
  end.

Definition timesOk (config : object) : bool :=
  timeFieldOk (get config "scheduledSleepSleepStartTime")
  && timeFieldOk (get config "scheduledSleepExpeditionSleepStartTime")
  && timeFieldOk (get config "scheduledSleepCombatSleepStartTime")
  && timeFieldOk (get config "combatRepairTimeLimit").

(** The text [hhmm] returns on such a field. *)
Definition timeText (v : value) : string :=
  match v with
  | DateObj d =>
      padStart 2 "0" (numberToString (getHours d))
      ++ padStart 2 "0" (numberToString (getMinutes d))
  | _ => ""
  end.

(** The six slots of [blankSlots], criteria and ships property of each. *)
Definition slots : list (string * string) :=
  [ ("shipSwitcherSlot1Criteria", "shipSwitcherSlot1Ships");
    ("shipSwitcherSlot2Criteria", "shipSwitcherSlot2Ships");
    ("shipSwitcherSlot3Criteria", "shipSwitcherSlot3Ships");
    ("shipSwitcherSlot4Criteria", "shipSwitcherSlot4Ships");
    ("shipSwitcherSlot5Criteria", "shipSwitcherSlot5Ships");
    ("shipSwitcherSlot6Criteria", "shipSwitcherSlot6Ships") ].

Definition slotKeys (l : list (string * string)) : list string :=
  l ≫= λ p, [p.1; p.2].

(** The first slot of [l] that owns property [k]. *)
Fixpoint slotOf (k : string) (l : list (string * string)) : option (string * string) :=
  match l with
  | [] => None
  | p :: l => if bool_decide (k = p.1 ∨ k = p.2) then Some p else slotOf k l
  end.

(** The condition of the [if] of [blankSlot]. *)
Definition slotBlanked (configTemp : object) (criteria ships : string) : bool :=
  negb (truthy (get configTemp criteria)) || negb (truthy (get configTemp ships)).

(** The array [setPythonConfig] builds when none of the four time-of-day
    constants throws. *)
Definition serialized (config : object) : list string :=
  Actions.pythonConfig
    (Actions.blankSlots (Actions.configTemp config))
    (timeText (get config "scheduledSleepSleepStartTime"))
    (timeText (get config "scheduledSleepExpeditionSleepStartTime"))
    (timeText (get config "scheduledSleepCombatSleepStartTime"))
    (timeText (get config "combatRepairTimeLimit"))
    (Actions.lbasNodes (Actions.configTemp config) "combatLBASGroup1Node1" "combatLBASGroup1Node2")
    (Actions.lbasNodes (Actions.configTemp config) "combatLBASGroup2Node1" "combatLBASGroup2Node2")
    (Actions.lbasNodes (Actions.configTemp config) "combatLBASGroup3Node1" "combatLBASGroup3Node2")
    (Actions.combatOptions config).

(** [setPythonConfig(config)] returns normally, whatever [dispatch] it is
    given, and what it dispatches is the set-action carrying [lines]. *)
Definition dispatches {actionType : Type} (SET_PYTHON_CONFIG : actionType)
    (config : object) (lines : list string) : Prop :=
  ∀ R (dispatch : action actionType → R),
    Actions.setPythonConfig SET_PYTHON_CONFIG config dispatch
    = Return (dispatch (Actions.setPythonConfigSuccess SET_PYTHON_CONFIG lines)).

(** The lines [`Key: ${configTemp.field}`] of the array literal whose field
    no step after the general pass touches: index, key, field. *)
Definition generalLines : list (nat * string * string) :=
  [ (1, "Program", "generalProgram");
    (2, "JSTOffset", "generalJSTOffset");
    (3, "Pause", "generalPause");
    (6, "SleepEnabled", "scheduledSleepSleepEnabled");
    (8, "SleepLength", "scheduledSleepSleepLength");
    (9, "ExpeditionSleepEnabled", "scheduledSleepExpeditionSleepEnabled");
    (11, "ExpeditionSleepLength", "scheduledSleepExpeditionSleepLength");
    (12, "CombatSleepEnabled", "scheduledSleepCombatSleepEnabled");
    (14, "CombatSleepLength", "scheduledSleepCombatSleepLength");
    (17, "Enabled", "expeditionsEnabled");
    (18, "Fleet2", "expeditionsFleet2");
    (19, "Fleet3", "expeditionsFleet3");
    (20, "Fleet4", "expeditionsFleet4");
    (23, "Enabled", "pvpEnabled");
    (26, "Enabled", "combatEnabled");
    (27, "Engine", "combatEngine");
    (28, "Map", "combatMap");
    (29, "FleetMode", "combatFleetMode");
    (30, "CombatNodes", "combatCombatNodes");
    (31, "NodeSelects", "combatNodeSelects");
    (32, "Formations", "combatFormations");
    (33, "NightBattles", "combatNightBattles");
    (34, "RetreatLimit", "combatRetreatLimit");
    (35, "RepairLimit", "combatRepairLimit");
    (37, "LBASGroups", "combatLBASGroups");
    (41, "ForceRetreatNodes", "combatForceRetreatNodes");
    (45, "Enabled", "shipSwitcherEnabled");
    (60, "Enabled", "questsEnabled") ].

(** The four lines fed by a time-of-day constant: index, key, field. *)
Definition timeLines : list (nat * string * string) :=
  [ (7, "SleepStartTime", "scheduledSleepSleepStartTime");
    (10, "ExpeditionSleepStartTime", "scheduledSleepExpeditionSleepStartTime");
    (13, "CombatSleepStartTime", "scheduledSleepCombatSleepStartTime");
    (36, "RepairTimeLimit", "combatRepairTimeLimit") ].

(** The three LBAS group lines: index, key, the two node fields. *)
Definition lbasLines : list (nat * string * (string * string)) :=
  [ (38, "LBASGroup1Nodes", ("combatLBASGroup1Node1", "combatLBASGroup1Node2"));
    (39, "LBASGroup2Nodes", ("combatLBASGroup2Node1", "combatLBASGroup2Node2"));
    (40, "LBASGroup3Nodes", ("combatLBASGroup3Node1", "combatLBASGroup3Node2")) ].

(** The six ship-switcher slots: index of the criteria line (the ships line
    is the next one), prefix of the two keys, criteria and ships field. *)
Definition slotLines : list (nat * string * (string * string)) :=
  [ (46, "Slot1", ("shipSwitcherSlot1Criteria", "shipSwitcherSlot1Ships"));
    (48, "Slot2", ("shipSwitcherSlot2Criteria", "shipSwitcherSlot2Ships"));
    (50, "Slot3", ("shipSwitcherSlot3Criteria", "shipSwitcherSlot3Ships"));
    (52, "Slot4", ("shipSwitcherSlot4Criteria", "shipSwitcherSlot4Ships"));
    (54, "Slot5", ("shipSwitcherSlot5Criteria", "shipSwitcherSlot5Ships"));
    (56, "Slot6", ("shipSwitcherSlot6Criteria", "shipSwitcherSlot6Ships")) ].

(** A browser in the JST time zone, on a day that starts at midnight, and
    the default ConfigRecord of the reducers there. *)
Definition exampleMidnight : Date :=
  mkDate (Int 0) (Int 0) "Tue Nov 03 2026 00:00:00 GMT+0900 (Japan Standard Time)".

Definition exampleEnvironment : Reducers.environment :=
  {| Reducers.defaultJSTOffset := Int 0;
     Reducers.defaultSleepStartTime := exampleMidnight;
     Reducers.defaultExpeditionSleepStartTime := exampleMidnight;
     Reducers.defaultCombatSleepStartTime := exampleMidnight;
     Reducers.defaultRepairTimeLimit :=
       mkDate (Int 0) (Int 30) "Tue Nov 03 2026 00:30:00 GMT+0900 (Japan Standard Time)" |}.

Definition exampleDefaults : object := Reducers.jsonConfigDefaults exampleEnvironment.

(** The zero-padded two-digit decimal form of a number below 100, and the
    HHMM text of a time of day. *)
Definition digit (n : Z) : Ascii.ascii := Ascii.ascii_of_nat (48 + Z.to_nat n).

Definition twoDigits (n : Z) : string :=
  String (digit (n / 10)) (String (digit (n mod 10)) EmptyString).

Definition HHMM (hour minute : Z) : string := twoDigits hour ++ twoDigits minute.

(** The tags of the misc options whose flag is set, in declaration order. *)
Definition miscOptionTags (checkFatigue reserveDocks portCheck clearStop : bool)
    : list string :=
  (filter (λ p, p.2 = true)
     [ ("CheckFatigue", checkFatigue); ("ReserveDocks", reserveDocks);
       ("PortCheck", portCheck); ("ClearStop", clearStop) ]).*1.

(** The values of a ConfigRecord field whose normalized form is falsy: an
    absent field ([undefined]), [null], [''], [0] and [NaN]. *)
Definition blanking (v : value) : Prop :=
  v = Undefined ∨ v = Null ∨ v = Str "" ∨ v = Num (Int 0) ∨ v = Num NaN.

(** The layout of the config file: the sections in order, each with its
    keys in order. *)
Definition documentedLayout : list (string * list string) :=
  [ ("General", ["Program"; "JSTOffset"; "Pause"]);
    ("ScheduledSleep",
       ["SleepEnabled"; "SleepStartTime"; "SleepLength";
        "ExpeditionSleepEnabled"; "ExpeditionSleepStartTime"; "ExpeditionSleepLength";
        "CombatSleepEnabled"; "CombatSleepStartTime"; "CombatSleepLength"]);
    ("Expeditions", ["Enabled"; "Fleet2"; "Fleet3"; "Fleet4"]);
    ("PvP", ["Enabled"]);
    ("Combat",
       ["Enabled"; "Engine"; "Map"; "FleetMode"; "CombatNodes"; "NodeSelects";
        "Formations"; "NightBattles"; "RetreatLimit"; "RepairLimit";
        "RepairTimeLimit"; "LBASGroups"; "LBASGroup1Nodes"; "LBASGroup2Nodes";
        "LBASGroup3Nodes"; "ForceRetreatNodes"; "MiscOptions"]);
    ("ShipSwitcher",
       ["Enabled"; "Slot1Criteria"; "Slot1Ships"; "Slot2Criteria"; "Slot2Ships";
        "Slot3Criteria"; "Slot3Ships"; "Slot4Criteria"; "Slot4Ships";
        "Slot5Criteria"; "Slot5Ships"; "Slot6Criteria"; "Slot6Ships"]);
    ("Quests", ["Enabled"]) ].

(** The blocks of [l] in order, with exactly one [sep] between two
    consecutive blocks. *)
Fixpoint joinWith {A} (sep : A) (l : list (list A)) : list A :=
  match l with
  | [] => []
  | [block] => block
  | block :: rest => (block ++ sep :: joinWith sep rest)%list
  end.

(** A section as lines: the header, then one [Key: Value] line per key. *)
Definition renderSection (section : string * list string) (values : list string)
    : list string :=
  ("[" ++ section.1 ++ "]") :: zip_with (λ key value, key ++ ": " ++ value) section.2 values.

Definition renderLayout (layout : list (string * list string))
    (values : list (list string)) : list string :=
  joinWith "" (zip_with renderSection layout values).

(** The kinds of line of the config file and the line a kind admits. *)
Inductive lineKind :=
| Header (name : string)
| Blank
| KeyLine (key : string).

Definition skeleton : list lineKind :=
  joinWith Blank
    ((λ section : string * list string, Header section.1 :: (KeyLine <$> section.2))
       <$> documentedLayout).

Definition fits (kind : lineKind) (line : string) : Prop :=
  match kind with
  | Header name => line = "[" ++ name ++ "]"
  | Blank => line = ""
  | KeyLine key => ∃ value, line = key ++ ": " ++ value
  end.

Definition isHeader (kind : lineKind) : bool :=
  match kind with Header _ => true | _ => false end.

Definition isBlank (kind : lineKind) : bool :=
  match kind with Blank => true | _ => false end.

(** The indices of the elements of [l] that satisfy [P]. *)
Definition indicesWhere {A} (P : A → bool) (l : list A) : list nat :=
  (filter (λ p, P p.2 = true) (zip (seq 0 (length l)) l)).*1.

(** ConfigRecords the properties are exercised on. *)
Definition exampleMissingProgram : object := delete "generalProgram" exampleDefaults.

Definition exampleStringTime : object :=
  <["scheduledSleepSleepStartTime" := Str "2300"]> exampleDefaults.

Definition exampleTimes : object :=
  <["scheduledSleepSleepStartTime" := DateObj (mkDate (Int 9) (Int 5) "")]>
    (<["scheduledSleepCombatSleepStartTime" := DateObj (mkDate (Int 23) (Int 59) "")]>
       (<["combatRepairTimeLimit" := Null]> exampleDefaults)).

Definition exampleLBAS : object :=
  <["combatLBASGroup1Node1" := Str "A2"]>
    (<["combatLBASGroup1Node2" := Str "B3"]>
       (<["combatLBASGroup2Node1" := Str "A2"]>
          (<["combatLBASGroup3Node1" := Num (Int 0)]>
             (<["combatLBASGroup3Node2" := Str "B3"]> exampleDefaults)))).

Definition exampleMiscOptions : object :=
  <["combatOptionCheckFatigue" := Boolean true]>
    (<["combatOptionPortCheck" := Boolean true]> exampleDefaults).

Definition exampleSlots : object :=
  <["shipSwitcherSlot1Criteria" := Str "Cond"]>
    (<["shipSwitcherSlot2Criteria" := Str "Cond"]>
       (<["shipSwitcherSlot2Ships" := Str "ShipA"]> exampleDefaults)).

Definition exampleFalseCriteria : object :=
  <["shipSwitcherSlot1Criteria" := Boolean false]>
    (<["shipSwitcherSlot1Ships" := Str "ShipA"]>
       (<["shipSwitcherSlot2Criteria" := Num NaN]>
          (<["shipSwitcherSlot2Ships" := Str "ShipA"]> exampleDefaults))).

Definition exampleNaNCriteria : object :=
  <["shipSwitcherSlot1Criteria" := Num NaN]>
    (<["shipSwitcherSlot1Ships" := Str "ShipA"]> exampleDefaults).

(** The four flags [combatOptions] tests, in the order of the [if]s. *)
Definition optionFields : list string :=
  [ "combatOptionCheckFatigue"; "combatOptionReserveDocks";
    "combatOptionPortCheck"; "combatOptionClearStop" ].

(** The properties of [config] that [setPythonConfig] reads by name: those
    of the lines of the array, the node fields, the flags and the slots. *)
Definition readFields : list string :=
  (generalLines.*2 ++ timeLines.*2
   ++ (lbasLines ≫= λ l, [l.2.1; l.2.2])
   ++ optionFields ++ slotKeys slots)%list.

(** A Date that reads [hour]:[minute] on the 24-hour clock. *)
Definition clockTime (d : Date) (hour minute : Z) : Prop :=
  getHours d = Int hour ∧ getMinutes d = Int minute
  ∧ (0 ≤ hour < 24)%Z ∧ (0 ≤ minute < 60)%Z.

(** The config file of the default ConfigRecord, over the default JST offset
    and the texts of the three sleep start times and of the repair time
    limit. *)
Definition defaultLines (generalJSTOffset : number)
    (sleepStartTime expeditionSleepStartTime combatSleepStartTime repairTimeLimit : string)
    : list string :=
  [ "[General]"; "Program: Chrome"; "JSTOffset: " ++ numberToString generalJSTOffset;
    "Pause: False"; "";
    "[ScheduledSleep]"; "SleepEnabled: True";
    "SleepStartTime: " ++ sleepStartTime; "SleepLength: 4";
    "ExpeditionSleepEnabled: False";
    "ExpeditionSleepStartTime: " ++ expeditionSleepStartTime;
    "ExpeditionSleepLength: 3"; "CombatSleepEnabled: False";
    "CombatSleepStartTime: " ++ combatSleepStartTime; "CombatSleepLength: 5"; "";
    "[Expeditions]"; "Enabled: True"; "Fleet2: 2"; "Fleet3: 5"; "Fleet4: 38"; "";
    "[PvP]"; "Enabled: True"; "";
    "[Combat]"; "Enabled: False"; "Engine: live"; "Map: 1-1"; "FleetMode: ";
    "CombatNodes: "; "NodeSelects: "; "Formations: "; "NightBattles: ";
    "RetreatLimit: heavy"; "RepairLimit: moderate";
    "RepairTimeLimit: " ++ repairTimeLimit;
    "LBASGroups: "; "LBASGroup1Nodes: "; "LBASGroup2Nodes: "; "LBASGroup3Nodes: ";
    "ForceRetreatNodes: "; "MiscOptions: "; "";
    "[ShipSwitcher]"; "Enabled: False";
    "Slot1Criteria: "; "Slot1Ships: "; "Slot2Criteria: "; "Slot2Ships: ";
    "Slot3Criteria: "; "Slot3Ships: "; "Slot4Criteria: "; "Slot4Ships: ";
    "Slot5Criteria: "; "Slot5Ships: "; "Slot6Criteria: "; "Slot6Ships: "; "";
    "[Quests]"; "Enabled: True" ].

(** A browser in a half-hour time zone on a day whose local midnight is
    skipped by the change to summer time: [setHours(0, ...)] lands in the hour
    after. *)
Definition exampleSkippedMidnight : Reducers.environment :=
  {| Reducers.defaultJSTOffset := Finite true 35 1;
     Reducers.defaultSleepStartTime := mkDate (Int 1) (Int 0) "";
     Reducers.defaultExpeditionSleepStartTime := mkDate (Int 1) (Int 0) "";
     Reducers.defaultCombatSleepStartTime := mkDate (Int 1) (Int 0) "";
     Reducers.defaultRepairTimeLimit := mkDate (Int 1) (Int 30) "" |}.

(** Further ConfigRecords the properties are exercised on. *)
Definition exampleFalsyTimes : object :=
  <["scheduledSleepSleepStartTime" := Boolean false]>
    (<["scheduledSleepExpeditionSleepStartTime" := Num (Int 0)]>
       (<["scheduledSleepCombatSleepStartTime" := Str ""]>
          (<["combatRepairTimeLimit" := Num NaN]> exampleDefaults))).

Definition exampleTruthyOptions : object :=
  <["combatOptionCheckFatigue" := Null]>
    (<["combatOptionReserveDocks" := Str "False"]>
       (<["combatOptionPortCheck" := Num (Int 0)]>
          (<["combatOptionClearStop" := Num (Int 1)]> exampleDefaults))).

Definition exampleFalseNode : object :=
  <["combatLBASGroup1Node1" := Boolean false]>
    (<["combatLBASGroup1Node2" := Str "B3"]>
       (<["combatLBASGroup2Node1" := Num NaN]>
          (<["combatLBASGroup2Node2" := Str "B3"]> exampleDefaults))).

Definition exampleUnreadChanged : object :=
  <["dropzoneActive" := Boolean true]>
    (<["expeditionsFleet2Enabled" := Null]>
       (<["notAField" := Str "x"]> (delete "combatNodeSelect1" exampleDefaults))).

(** The defaults with the JST offset -3.5 of a half-hour time zone and with
    the number 10^21 as second fleet. *)
Definition exampleNumbers : object :=
  <["generalJSTOffset" := Num (Finite true 35 1)]>
    (<["expeditionsFleet2" := Num (Int (10 ^ 21))]> exampleDefaults).

(** *** Basic lemmas on the embedding *)

Lemma lookup_assign (o : object) key v k :
  assign o key v !! k
  = if decide (k = key ∧ key ≠ "__proto__") then Some v else o !! k.
Proof.
  unfold assign. destruct (decide (key = "__proto__")) as [->|Hkey].
  - rewrite decide_False; [done | tauto].
  - destruct (decide (k = key)) as [->|Hk].
    + by rewrite lookup_insert_eq, decide_True.
    + rewrite lookup_insert_ne by done. rewrite decide_False; [done | tauto].
Qed.

Lemma configTemp_step_assign config ct key :
  Actions.configTemp_step config ct key = assign ct key (normalize (get config key)).
Proof.
  unfold Actions.configTemp_step, normalize.
  destruct (get config key) as [| |[]| | |]; reflexivity.
Qed.

Lemma foldl_configTemp_step config (l : list string) :
  ∀ (acc : object) k,
    foldl (Actions.configTemp_step config) acc l !! k
    = if decide (k ∈ l ∧ k ≠ "__proto__")
      then Some (normalize (get config k)) else acc !! k.
Proof.
  induction l as [|x l IH]; intros acc k; cbn [foldl].
  - destruct (decide (k ∈ [] ∧ k ≠ "__proto__")) as [[Hin _]|_]; [|done].
    by apply elem_of_nil in Hin.
  - rewrite IH, configTemp_step_assign, lookup_assign.
    destruct (decide (k ∈ l ∧ k ≠ "__proto__")) as [[Hl Hk]|Hl].
    + rewrite decide_True; [done|]. split; [by right | done].
    + destruct (decide (k = x ∧ x ≠ "__proto__")) as [[-> Hx]|Hne].
      * rewrite decide_True; [done|]. split; [by left | done].
      * rewrite decide_False; [done|].
        intros [[->|?]%elem_of_cons Hk]; tauto.
Qed.

Lemma elem_of_keys (o : object) k : k ∈ keys o ↔ is_Some (o !! k).
Proof.
  unfold keys. rewrite list_elem_of_fmap. split.
  - intros [[k' v] [Heq Hin]]. simpl in Heq. subst k'.
    apply elem_of_map_to_list in Hin. by exists v.
  - intros [v Hv]. exists (k, v). split; [done | by apply elem_of_map_to_list].
Qed.

(** After the general pass, every property but [__proto__] reads as the
    normalized value of the same property of [config]; a property [config]
    lacks is lacking, and so is [__proto__]. *)
Lemma lookup_configTemp config k :
  Actions.configTemp config !! k
  = if decide (k = "__proto__") then None else normalize <$> (config !! k).
Proof.
  unfold Actions.configTemp. rewrite foldl_configTemp_step, lookup_empty.
  destruct (decide (k = "__proto__")) as [->|Hk].
  - rewrite decide_False; [done | tauto].
  - destruct (config !! k) as [v|] eqn:Hv; simpl.
    + rewrite decide_True; [unfold get; by rewrite Hv|].
      split; [|done]. apply elem_of_keys. by exists v.
    + rewrite decide_False; [done|].
      intros [[v Hin]%elem_of_keys _]. congruence.
Qed.

Lemma get_configTemp config k :
  k ≠ "__proto__" → get (Actions.configTemp config) k = normalize (get config k).
Proof.
  intros Hk. unfold get. rewrite lookup_configTemp, decide_False by done.
  by destruct (config !! k).
Qed.

(** *** The string form of numbers *)

Lemma stripZeros_zeros digits :
  stripZeros digits ++ zeros (String.length digits - String.length (stripZeros digits))
  = digits.
Proof.
  induction digits as [|c rest IH]; [done|].
  cbn [stripZeros]. destruct (stripZeros rest) as [|a rest'] eqn:Hrest.
  - change (String.length "") with 0 in IH. rewrite Nat.sub_0_r in IH.
    change ("" ++ zeros (String.length rest)) with (zeros (String.length rest)) in IH.
    destruct (Ascii.eqb_spec c zeroChar) as [->|_].
    + change (String.length "") with 0. rewrite Nat.sub_0_r.
      change (String.length (String zeroChar rest)) with (S (String.length rest)).
      change ("" ++ zeros (S (String.length rest)))
        with (String zeroChar (zeros (String.length rest))).
      by rewrite IH.
    + change (String.length (String c rest) - String.length (String c ""))
        with (String.length rest - 0).
      rewrite Nat.sub_0_r.
      change (String c "" ++ zeros (String.length rest))
        with (String c (zeros (String.length rest))).
      by rewrite IH.
  - change (String.length (String c rest) - String.length (String c (String a rest')))
      with (String.length rest - String.length (String a rest')).
    change (String c (String a rest') ++ ?x) with (String c (String a rest' ++ x)).
    by rewrite IH.
Qed.

Lemma length_stripZeros digits :
  (String.length (stripZeros digits) ≤ String.length digits)%nat.
Proof.
  induction digits as [|c rest IH]; [done|].
  cbn [stripZeros]. destruct (stripZeros rest) as [|a rest'].
  - destruct (Ascii.eqb c zeroChar); simpl; lia.
  - simpl in *. lia.
Qed.

(** An integer of at most 21 digits prints in plain decimal. *)
Lemma numberToString_Int z :
  (String.length (pretty (Z.abs z)) ≤ 21)%nat → numberToString (Int z) = pretty z.
Proof.
  assert (∀ p, (String.length (pretty (Npos p)) ≤ 21)%nat →
               finiteToString p (Z.of_nat (String.length (pretty (Npos p))))
               = pretty (Npos p)) as Hpos.
  { intros p Hlen. unfold finiteToString.
    pose proof (length_stripZeros (pretty (Npos p))) as Hk.
    pose proof (stripZeros_zeros (pretty (Npos p))) as Hd.
    set (digits := stripZeros (pretty (Npos p))) in *.
    set (s := pretty (Npos p)) in *.
    rewrite (proj2 (Z.leb_le _ _)) by lia. rewrite (proj2 (Z.leb_le _ _)) by lia.
    cbn [andb].
    replace (Z.to_nat (Z.of_nat (String.length s) - Z.of_nat (String.length digits)))
      with (String.length s - String.length digits) by lia.
    exact Hd. }
  destruct z as [|p|p]; intros Hlen.
  - reflexivity.
  - exact (Hpos p Hlen).
  - unfold numberToString, Int. rewrite (Hpos p Hlen). reflexivity.
Qed.

(** The forms of Number::toString: plain integers, a trailing-zero integer,
    the switch to the exponent form at 10^21, fractions, small fractions down
    to 1e-6 and below it, the largest and the smallest double, and the values
    that are not finite. *)
Lemma numberToString_forms :
  numberToString <$>
    [ Int 0; Int 38; Int (-9); Int 1200; Int (10 ^ 20); Int (10 ^ 21);
      Int (12 * 10 ^ 20); Finite true 35 1; Finite false 25 0; Finite false 1 (-5);
      Finite false 1 (-6); Finite false 15 (-6); Finite false 17976931348623157 309;
      Finite false 5 (-323); NaN; Infinity false; Infinity true ]
  = [ "0"; "38"; "-9"; "1200"; "100000000000000000000"; "1e+21";
      "1.2e+21"; "-3.5"; "0.25"; "0.000001";
      "1e-7"; "1.5e-7"; "1.7976931348623157e+308";
      "5e-324"; "NaN"; "Infinity"; "-Infinity" ].
Proof. vm_compute. reflexivity. Qed.

(** *** The ship-switcher slots *)

Lemma blankSlots_foldl ct :
  Actions.blankSlots ct = foldl (λ ct p, Actions.blankSlot p.1 p.2 ct) ct slots.
Proof. reflexivity. Qed.

Lemma get_blankSlot ct c s k :
  get (Actions.blankSlot c s ct) k
  = if bool_decide (k = c ∨ k = s)
    then (if slotBlanked ct c s then Str "" else get ct k)
    else get ct k.
Proof.
  unfold Actions.blankSlot. fold (slotBlanked ct c s).
  destruct (slotBlanked ct c s); [|by case_bool_decide].
  unfold get. case_bool_decide as Hk.
  - destruct (decide (k = s)) as [->|Hs]; [by rewrite lookup_insert_eq|].
    destruct Hk as [->|?]; [|done].
    by rewrite lookup_insert_ne, lookup_insert_eq.
  - rewrite !lookup_insert_ne; [done|intros ->; tauto..].
Qed.

Lemma slotKeys_cons p l : slotKeys (p :: l) = p.1 :: p.2 :: slotKeys l.
Proof. reflexivity. Qed.

Lemma slotOf_None k l : k ∉ slotKeys l → slotOf k l = None.
Proof.
  induction l as [|p l IH]; [done|].
  rewrite slotKeys_cons, !not_elem_of_cons. intros (? & ? & ?). simpl.
  rewrite bool_decide_false by tauto. auto.
Qed.

Lemma slotOf_Some k l p :
  slotOf k l = Some p → (k = p.1 ∨ k = p.2) ∧ p.1 ∈ slotKeys l ∧ p.2 ∈ slotKeys l.
Proof.
  induction l as [|q l IH]; [done|]. rewrite slotKeys_cons.
  change (slotOf k (q :: l))
    with (if bool_decide (k = q.1 ∨ k = q.2) then Some q else slotOf k l).
  case_bool_decide as Hk.
  - intros [= ->]. split; [done|]. split; [by left | right; by left].
  - intros (? & ? & ?)%IH. split; [done|]. split; by do 2 right.
Qed.

Lemma get_foldl_blankSlot l :
  NoDup (slotKeys l) →
  ∀ ct k,
    get (foldl (λ ct p, Actions.blankSlot p.1 p.2 ct) ct l) k
    = match slotOf k l with
      | Some p => if slotBlanked ct p.1 p.2 then Str "" else get ct k
      | None => get ct k
      end.
Proof.
  induction l as [|p l IH]; [done|].
  rewrite slotKeys_cons. intros (Hp1 & (Hp2 & Hl)%NoDup_cons)%NoDup_cons ct k.
  apply not_elem_of_cons in Hp1 as [Hp12 Hp1].
  simpl. rewrite IH by done. case_bool_decide as Hk.
  - rewrite slotOf_None by (by destruct Hk as [->| ->]).
    by rewrite get_blankSlot, bool_decide_true.
  - rewrite (get_blankSlot _ _ _ k), bool_decide_false by done.
    destruct (slotOf k l) as [q|] eqn:Hq; [|done].
    apply slotOf_Some in Hq as (_ & Hq1 & Hq2).
    unfold slotBlanked at 1. rewrite !get_blankSlot.
    rewrite !bool_decide_false; [done|unfold not in *; intros [?|?]; congruence..].
Qed.

(** How a property reads after the six blanking steps. *)
Lemma get_blankSlots ct k :
  get (Actions.blankSlots ct) k
  = match slotOf k slots with
    | Some p => if slotBlanked ct p.1 p.2 then Str "" else get ct k
    | None => get ct k
    end.
Proof.
  rewrite blankSlots_foldl. apply get_foldl_blankSlot.
  apply (bool_decide_unpack _). by vm_compute.
Qed.

(** *** The time-of-day constants and the whole action creator *)

Lemma hhmm_spec v :
  Actions.hhmm v = if timeFieldOk v then Return (timeText v) else Throw TypeError.
Proof.
  destruct v as [| |[]|s|[| | |]|d]; try reflexivity.
  by destruct s.
Qed.

Lemma setPythonConfig_spec {actionType R} (SET_PYTHON_CONFIG : actionType)
    (config : object) (dispatch : action actionType → R) :
  Actions.setPythonConfig SET_PYTHON_CONFIG config dispatch
  = if timesOk config
    then Return (dispatch (Actions.setPythonConfigSuccess SET_PYTHON_CONFIG (serialized config)))
    else Throw TypeError.
Proof.
  unfold Actions.setPythonConfig, timesOk, serialized.
  rewrite !hhmm_spec.
  destruct (timeFieldOk (get config "scheduledSleepSleepStartTime")); [|done].
  destruct (timeFieldOk (get config "scheduledSleepExpeditionSleepStartTime")); [|done].
  destruct (timeFieldOk (get config "scheduledSleepCombatSleepStartTime")); [|done].
  destruct (timeFieldOk (get config "combatRepairTimeLimit")); done.
Qed.

Lemma dispatches_serialized {actionType} (SET_PYTHON_CONFIG : actionType) config :
  timesOk config = true → dispatches SET_PYTHON_CONFIG config (serialized config).
Proof. intros Hok R dispatch. by rewrite setPythonConfig_spec, Hok. Qed.

(** *** The lines of the array literal *)

Lemma pythonConfig_generalLines ct t1 t2 t3 t4 g1 g2 g3 o :
  Forall (λ '(i, key, field),
            Actions.pythonConfig ct t1 t2 t3 t4 g1 g2 g3 o !! i
            = Some (key ++ ": " ++ ToString (get ct field)))
         generalLines.
Proof. unfold generalLines. repeat (apply Forall_cons; split; [reflexivity|]). apply Forall_nil_2. Qed.

Lemma pythonConfig_slotLines ct t1 t2 t3 t4 g1 g2 g3 o :
  Forall (λ '(i, slot, (criteria, ships)),
            Actions.pythonConfig ct t1 t2 t3 t4 g1 g2 g3 o !! i
            = Some (slot ++ "Criteria: " ++ ToString (get ct criteria))
            ∧ Actions.pythonConfig ct t1 t2 t3 t4 g1 g2 g3 o !! S i
              = Some (slot ++ "Ships: " ++ ToString (get ct ships)))
         slotLines.
Proof. unfold slotLines. repeat (apply Forall_cons; split; [split; reflexivity|]). apply Forall_nil_2. Qed.

Lemma get_blankSlots_other ct k :
  slotOf k slots = None → get (Actions.blankSlots ct) k = get ct k.
Proof. intros Hk. by rewrite get_blankSlots, Hk. Qed.

(** A line of [generalLines] shows the string form of the normalized value
    of its field. *)
Lemma serialized_generalLines config :
  Forall (λ '(i, key, field),
            serialized config !! i
            = Some (key ++ ": " ++ ToString (normalize (get config field))))
         generalLines.
Proof.
  unfold serialized.
  match goal with
  | |- context [Actions.pythonConfig ?ct ?t1 ?t2 ?t3 ?t4 ?g1 ?g2 ?g3 ?o] =>
      pose proof (pythonConfig_generalLines ct t1 t2 t3 t4 g1 g2 g3 o) as Hlit
  end.
  unfold generalLines in *.
  repeat (apply Forall_cons in Hlit as [Hline Hlit];
          apply Forall_cons; split;
          [rewrite Hline, get_blankSlots_other, get_configTemp
             by first [discriminate | vm_compute; reflexivity];
           reflexivity|]; clear Hline).
  apply Forall_nil_2.
Qed.

Lemma serialized_timeLines config :
  Forall (λ '(i, key, field),
            serialized config !! i = Some (key ++ ": " ++ timeText (get config field)))
         timeLines.
Proof. unfold timeLines. repeat (apply Forall_cons; split; [reflexivity|]). apply Forall_nil_2. Qed.

Lemma serialized_lbasLines config :
  Forall (λ '(i, key, (node1, node2)),
            serialized config !! i
            = Some (key ++ ": " ++ Actions.lbasNodes (Actions.configTemp config) node1 node2))
         lbasLines.
Proof. unfold lbasLines. repeat (apply Forall_cons; split; [reflexivity|]). apply Forall_nil_2. Qed.

Lemma serialized_miscOptions config :
  serialized config !! 42 = Some ("MiscOptions: " ++ join "," (Actions.combatOptions config)).
Proof. reflexivity. Qed.

Lemma get_blankSlots_slot ct k criteria ships :
  slotOf k slots = Some (criteria, ships) →
  get (Actions.blankSlots ct) k
  = if slotBlanked ct criteria ships then Str "" else get ct k.
Proof. intros Hk. by rewrite get_blankSlots, Hk. Qed.


(** The two lines of a slot show the empty string when the slot is blanked
    and the string forms of the two normalized values otherwise. *)
Lemma serialized_slotLines config :
  Forall (λ '(i, slot, (criteria, ships)),
            let ct := Actions.configTemp config in
            serialized config !! i
            = Some (slot ++ "Criteria: "
                    ++ ToString (if slotBlanked ct criteria ships then Str "" else get ct criteria))
            ∧ serialized config !! S i
              = Some (slot ++ "Ships: "
                      ++ ToString (if slotBlanked ct criteria ships then Str "" else get ct ships)))
         slotLines.
Proof.
  unfold serialized.
  match goal with
  | |- context [Actions.pythonConfig ?ct ?t1 ?t2 ?t3 ?t4 ?g1 ?g2 ?g3 ?o] =>
      pose proof (pythonConfig_slotLines ct t1 t2 t3 t4 g1 g2 g3 o) as Hlit
  end.
  unfold slotLines in *. cbv zeta.
  repeat (apply Forall_cons in Hlit as [[Hcriteria Hships] Hlit];
          apply Forall_cons; split;
          [rewrite Hcriteria, Hships;
           erewrite !get_blankSlots_slot by (vm_compute; reflexivity);
           split; reflexivity|]; clear Hcriteria Hships).
  apply Forall_nil_2.
Qed.

Lemma timeFieldOk_false v :
  timeFieldOk v = false
  ↔ v = Boolean true ∨ (∃ s, v = Str s ∧ s ≠ "")
    ∨ (∃ n, v = Num n ∧ n ≠ Zero ∧ n ≠ NaN).
Proof.
  split.
  - destruct v as [| |[]|s|n|d]; try discriminate; simpl.
    + by left.
    + destruct s; [discriminate|]. intros _. right. left. eexists. by split.
    + intros Hn. right. right. exists n. by destruct n.
  - intros [->|[(s & -> & Hs)|(n & -> & Hz & Hn)]]; simpl.
    + done.
    + by destruct s.
    + by destruct n.
Qed.

(** ** The claims *)

(** C1 (as amended).  [setPythonConfig] returns normally, and dispatches the
    array of lines, on every ConfigRecord whose four time-of-day fields are
    each absent, falsy ([null], [false], [''], [0], [NaN]) or a Date; there a
    missing field without override prints as [undefined], a [null] one as the
    empty text, and a missing or [null] time-of-day field as the empty text.
    When one of the four time-of-day fields holds any other value ([true], a
    non-empty string, a non-zero number), the call of [getHours] on it throws
    a TypeError and nothing is dispatched. *)
Theorem setPythonConfig_total_on_typed_times {actionType} (SET_PYTHON_CONFIG : actionType)
    (config : object) :
  (timesOk config = true →
   ∃ lines, dispatches SET_PYTHON_CONFIG config lines
     ∧ (∀ i key field, (i, key, field) ∈ generalLines →
          config !! field = None → lines !! i = Some (key ++ ": undefined"))
     ∧ (∀ i key field, (i, key, field) ∈ generalLines →
          config !! field = Some Null → lines !! i = Some (key ++ ": "))
     ∧ (∀ i key field, (i, key, field) ∈ timeLines →
          config !! field = None ∨ config !! field = Some Null →
          lines !! i = Some (key ++ ": ")))
  ∧ (timesOk config = false →
     ∀ R (dispatch : action actionType → R),
       Actions.setPythonConfig SET_PYTHON_CONFIG config dispatch = Throw TypeError).
Proof.
  split.
  - intros Hok. exists (serialized config).
    split; [by apply dispatches_serialized|].
    pose proof (serialized_generalLines config) as Hg. rewrite Forall_forall in Hg.
    pose proof (serialized_timeLines config) as Ht. rewrite Forall_forall in Ht.
    repeat split.
    + intros i key field Hin Hf. rewrite (Hg _ Hin). unfold get. by rewrite Hf.
    + intros i key field Hin Hf. rewrite (Hg _ Hin). unfold get. by rewrite Hf.
    + intros i key field Hin Hf. rewrite (Ht _ Hin). unfold get.
      by destruct Hf as [-> | ->].
  - intros Hko R dispatch. by rewrite setPythonConfig_spec, Hko.
Qed.

(** The defaults without [generalProgram] are serialized, with [undefined]
    as the program; the defaults with a string as sleep start time throw. *)
Lemma setPythonConfig_total_on_typed_times_witness :
  (timesOk exampleMissingProgram = true
   ∧ ∃ lines, dispatches "SET_PYTHON_CONFIG" exampleMissingProgram lines
       ∧ lines !! 1 = Some "Program: undefined"
       ∧ lines !! 30 = Some "CombatNodes: ")
  ∧ (timesOk exampleStringTime = false
     ∧ Actions.setPythonConfig "SET_PYTHON_CONFIG" exampleStringTime id = Throw TypeError).
Proof.
  assert (Hok : timesOk exampleMissingProgram = true) by (vm_compute; reflexivity).
  assert (Hko : timesOk exampleStringTime = false) by (vm_compute; reflexivity).
  split;
    [|split; [exact Hko|];
      exact (proj2 (setPythonConfig_total_on_typed_times
                      "SET_PYTHON_CONFIG" exampleStringTime) Hko _ id)].
  split; [exact Hok|].
  destruct (setPythonConfig_total_on_typed_times "SET_PYTHON_CONFIG" exampleMissingProgram)
    as [Hret _].
  destruct (Hret Hok) as (lines & Hd & Hmissing & Hnull & _).
  exists lines. split; [exact Hd|]. split.
  - apply (Hmissing 1 "Program" "generalProgram"); [by left | vm_compute; reflexivity].
  - apply (Hnull 30 "CombatNodes" "combatCombatNodes");
      [unfold generalLines; repeat constructor | vm_compute; reflexivity].
Defined.

(** C1 as stated fails: a ConfigRecord all of whose fields are [null], a
    boolean, a string, a number or a Date, with a string as the sleep start
    time, makes [setPythonConfig] throw. *)
Lemma setPythonConfig_throws_on_string_time :
  get exampleStringTime "scheduledSleepSleepStartTime" = Str "2300"
  ∧ Actions.setPythonConfig "SET_PYTHON_CONFIG" exampleStringTime id = Throw TypeError.
Proof. split; vm_compute; reflexivity. Qed.

(** C3.  For every property name but [__proto__], which an assignment on an
    object literal does not create, the general pass stores [true] as the
    text [True], [false] as [False], [null] as the empty string, and leaves a
    string or a number as it is; and on each line of the output whose field
    has no override, the value printed after [Key: ] is accordingly [True],
    [False], the empty text, the string itself, or the string form of the
    number. *)
Theorem general_pass_normalization {actionType} (SET_PYTHON_CONFIG : actionType)
    (config : object) :
  (∀ key, key ≠ "__proto__" →
     let stored := get (Actions.configTemp config) key in
     (get config key = Boolean true → stored = Str "True")
     ∧ (get config key = Boolean false → stored = Str "False")
     ∧ (get config key = Null → stored = Str "")
     ∧ (∀ s, get config key = Str s → stored = Str s)
     ∧ (∀ n, get config key = Num n → stored = Num n))
  ∧ (timesOk config = true →
     ∃ lines, dispatches SET_PYTHON_CONFIG config lines
       ∧ ∀ i key field, (i, key, field) ∈ generalLines →
           (get config field = Boolean true → lines !! i = Some (key ++ ": True"))
           ∧ (get config field = Boolean false → lines !! i = Some (key ++ ": False"))
           ∧ (get config field = Null → lines !! i = Some (key ++ ": "))
           ∧ (∀ s, get config field = Str s → lines !! i = Some (key ++ ": " ++ s))
           ∧ (∀ n, get config field = Num n →
                lines !! i = Some (key ++ ": " ++ numberToString n))).
Proof.
  split.
  - intros key Hkey stored. subst stored. rewrite get_configTemp by done.
    repeat split; intros; by match goal with H : get _ _ = _ |- _ => rewrite H end.
  - intros Hok. exists (serialized config).
    split; [by apply dispatches_serialized|].
    pose proof (serialized_generalLines config) as Hg. rewrite Forall_forall in Hg.
    intros i key field Hin. rewrite (Hg _ Hin).
    repeat split; intros; by match goal with H : get _ _ = _ |- _ => rewrite H end.
Qed.

(** On the defaults with the offset -3.5 of a half-hour time zone and the
    number 10^21 as a fleet: a string, [false], [true], a fraction and a
    number printed in exponent form. *)
Lemma general_pass_normalization_witness :
  timesOk exampleNumbers = true
  ∧ ∃ lines, dispatches "SET_PYTHON_CONFIG" exampleNumbers lines
      ∧ lines !! 1 = Some "Program: Chrome"
      ∧ lines !! 3 = Some "Pause: False"
      ∧ lines !! 6 = Some "SleepEnabled: True"
      ∧ lines !! 2 = Some "JSTOffset: -3.5"
      ∧ lines !! 18 = Some "Fleet2: 1e+21".
Proof.
  assert (Hok : timesOk exampleNumbers = true) by (vm_compute; reflexivity).
  split; [exact Hok|].
  destruct (general_pass_normalization "SET_PYTHON_CONFIG" exampleNumbers) as [_ Hout].
  destruct (Hout Hok) as (lines & Hd & Hl).
  exists lines. split; [exact Hd|]. repeat split.
  - destruct (Hl 1 "Program" "generalProgram") as (_ & _ & _ & Hs & _); [by left|].
    apply (Hs "Chrome"). vm_compute. reflexivity.
  - destruct (Hl 3 "Pause" "generalPause") as (_ & Hf & _);
      [unfold generalLines; repeat constructor|].
    apply Hf. vm_compute. reflexivity.
  - destruct (Hl 6 "SleepEnabled" "scheduledSleepSleepEnabled") as (Ht & _);
      [unfold generalLines; repeat constructor|].
    apply Ht. vm_compute. reflexivity.
  - destruct (Hl 2 "JSTOffset" "generalJSTOffset") as (_ & _ & _ & _ & Hn);
      [unfold generalLines; repeat constructor|].
    apply (Hn (Finite true 35 1)). vm_compute. reflexivity.
  - destruct (Hl 18 "Fleet2" "expeditionsFleet2") as (_ & _ & _ & _ & Hn);
      [unfold generalLines; repeat constructor|].
    apply (Hn (Int (10 ^ 21))). vm_compute. reflexivity.
Defined.

Lemma padStart_twoDigits n :
  (0 ≤ n < 100)%Z → padStart 2 "0" (numberToString (Int n)) = twoDigits n.
Proof.
  intros Hn.
  assert (∃ k : nat, n = Z.of_nat k ∧ k < 100) as (k & -> & Hk)
    by (exists (Z.to_nat n); lia).
  do 100 (destruct k as [|k]; [vm_compute; reflexivity|]). lia.
Qed.

(** C4.  On each of the four time-of-day lines: when the field of the input
    holds a Date whose hour is in 0..23 and whose minute is in 0..59, the
    value printed is the two-digit hour followed by the two-digit minute;
    when the field is absent or [null], the value is empty. *)
Theorem time_fields_HHMM {actionType} (SET_PYTHON_CONFIG : actionType) (config : object) :
  timesOk config = true →
  ∃ lines, dispatches SET_PYTHON_CONFIG config lines
    ∧ ∀ i key field, (i, key, field) ∈ timeLines →
        (∀ d hour minute,
           get config field = DateObj d →
           getHours d = Int hour → getMinutes d = Int minute →
           (0 ≤ hour < 24)%Z → (0 ≤ minute < 60)%Z →
           lines !! i = Some (key ++ ": " ++ HHMM hour minute))
        ∧ (config !! field = None ∨ config !! field = Some Null →
           lines !! i = Some (key ++ ": ")).
Proof.
  intros Hok. exists (serialized config).
  split; [by apply dispatches_serialized|].
  pose proof (serialized_timeLines config) as Ht. rewrite Forall_forall in Ht.
  intros i key field Hin. rewrite (Ht _ Hin). split.
  - intros d hour minute -> Hh Hm Hhour Hminute. unfold timeText, HHMM.
    rewrite Hh, Hm, !padStart_twoDigits by lia. done.
  - unfold get. by intros [-> | ->].
Qed.

(** 09:05, the default 00:00, 23:59 and a [null] repair time limit. *)
Lemma time_fields_HHMM_witness :
  timesOk exampleTimes = true
  ∧ ∃ lines, dispatches "SET_PYTHON_CONFIG" exampleTimes lines
      ∧ lines !! 7 = Some "SleepStartTime: 0905"
      ∧ lines !! 10 = Some "ExpeditionSleepStartTime: 0000"
      ∧ lines !! 13 = Some "CombatSleepStartTime: 2359"
      ∧ lines !! 36 = Some "RepairTimeLimit: ".
Proof.
  assert (Hok : timesOk exampleTimes = true) by (vm_compute; reflexivity).
  split; [exact Hok|].
  destruct (time_fields_HHMM "SET_PYTHON_CONFIG" exampleTimes Hok) as (lines & Hd & Hl).
  exists lines. split; [exact Hd|]. repeat split.
  - destruct (Hl 7 "SleepStartTime" "scheduledSleepSleepStartTime") as [Hdate _];
      [by left|].
    apply (Hdate (mkDate (Int 9) (Int 5) "") 9%Z 5%Z); (reflexivity || lia).
  - destruct (Hl 10 "ExpeditionSleepStartTime" "scheduledSleepExpeditionSleepStartTime")
      as [Hdate _]; [unfold timeLines; repeat constructor|].
    apply (Hdate exampleMidnight 0%Z 0%Z); (reflexivity || lia).
  - destruct (Hl 13 "CombatSleepStartTime" "scheduledSleepCombatSleepStartTime")
      as [Hdate _]; [unfold timeLines; repeat constructor|].
    apply (Hdate (mkDate (Int 23) (Int 59) "") 23%Z 59%Z); (reflexivity || lia).
  - destruct (Hl 36 "RepairTimeLimit" "combatRepairTimeLimit") as [_ Hnull];
      [unfold timeLines; repeat constructor|].
    apply Hnull. right. reflexivity.
Defined.

Lemma truthy_normalize_false v : truthy (normalize v) = false ↔ blanking v.
Proof.
  unfold blanking. split.
  - destruct v as [| |[]|s|[| | |]|d]; simpl; try discriminate; try tauto.
    destruct s; [tauto | discriminate].
  - intros [->|[->|[->|[->| ->]]]]; reflexivity.
Qed.

Lemma lbasNodes_spec ct n1 n2 :
  Actions.lbasNodes ct n1 n2
  = if truthy (get ct n1) && truthy (get ct n2)
    then ToString (get ct n1) ++ "," ++ ToString (get ct n2)
    else "".
Proof.
  unfold Actions.lbasNodes, and_.
  destruct (truthy (get ct n1)) eqn:H1; simpl; [done | by rewrite H1].
Qed.

Lemma lbasLines_names i key node1 node2 :
  (i, key, (node1, node2)) ∈ lbasLines → node1 ≠ "__proto__" ∧ node2 ≠ "__proto__".
Proof.
  intros Hin. unfold lbasLines in Hin.
  repeat (apply elem_of_cons in Hin as [[= -> -> -> ->]|Hin]);
    [..|by apply elem_of_nil in Hin]; split; discriminate.
Qed.

(** C5.  On each of the three LBAS group lines: when the normalized values
    of the two node fields (the raw value with [true], [false] and [null]
    replaced by [True], [False] and the empty string) are both truthy, the
    value printed is their string forms joined by a comma; when one of them is
    falsy, as it is for an absent field, [null], the empty string, the number 0
    and [NaN], the value is empty. *)
Theorem lbas_group_nodes_joined {actionType} (SET_PYTHON_CONFIG : actionType)
    (config : object) :
  timesOk config = true →
  ∃ lines, dispatches SET_PYTHON_CONFIG config lines
    ∧ ∀ i key node1 node2, (i, key, (node1, node2)) ∈ lbasLines →
        let v1 := normalize (get config node1) in
        let v2 := normalize (get config node2) in
        (truthy v1 = true → truthy v2 = true →
         lines !! i = Some (key ++ ": " ++ ToString v1 ++ "," ++ ToString v2))
        ∧ (truthy v1 = false ∨ truthy v2 = false → lines !! i = Some (key ++ ": "))
        ∧ (blanking (get config node1) ∨ blanking (get config node2) →
           lines !! i = Some (key ++ ": ")).
Proof.
  intros Hok. exists (serialized config).
  split; [by apply dispatches_serialized|].
  pose proof (serialized_lbasLines config) as Hg. rewrite Forall_forall in Hg.
  intros i key node1 node2 Hin v1 v2.
  destruct (lbasLines_names _ _ _ _ Hin) as [Hn1 Hn2].
  rewrite (Hg _ Hin), lbasNodes_spec, !get_configTemp by done.
  fold v1 v2.
  assert (truthy v1 = false ∨ truthy v2 = false →
          Some (key ++ ": " ++ (if truthy v1 && truthy v2
                                then ToString v1 ++ "," ++ ToString v2 else ""))
          = Some (key ++ ": ")) as Hfalsy.
  { intros [-> | ->]; [done | by rewrite andb_false_r]. }
  repeat split.
  - by intros -> ->.
  - exact Hfalsy.
  - intros Hb. apply Hfalsy. subst v1 v2.
    destruct Hb as [Hb|Hb]; apply truthy_normalize_false in Hb; auto.
Qed.

(** Group 1 with both nodes, group 2 with a [null] second node, group 3
    with the number 0 as first node; and group 1 with [false] as first node,
    which prints as [False]. *)
Lemma lbas_group_nodes_joined_witness :
  (timesOk exampleLBAS = true
   ∧ ∃ lines, dispatches "SET_PYTHON_CONFIG" exampleLBAS lines
       ∧ lines !! 38 = Some "LBASGroup1Nodes: A2,B3"
       ∧ lines !! 39 = Some "LBASGroup2Nodes: "
       ∧ lines !! 40 = Some "LBASGroup3Nodes: ")
  ∧ (timesOk exampleFalseNode = true
     ∧ ∃ lines, dispatches "SET_PYTHON_CONFIG" exampleFalseNode lines
         ∧ lines !! 38 = Some "LBASGroup1Nodes: False,B3").
Proof.
  assert (Hok : timesOk exampleLBAS = true) by (vm_compute; reflexivity).
  assert (Hok' : timesOk exampleFalseNode = true) by (vm_compute; reflexivity).
  split; (split; [assumption|]).
  - destruct (lbas_group_nodes_joined "SET_PYTHON_CONFIG" exampleLBAS Hok)
      as (lines & Hd & Hl).
    exists lines. split; [exact Hd|]. repeat split.
    + destruct (Hl 38 "LBASGroup1Nodes" "combatLBASGroup1Node1" "combatLBASGroup1Node2")
        as (Hboth & _); [by left|].
      etrans; [apply Hboth; vm_compute; reflexivity|]. vm_compute. reflexivity.
    + destruct (Hl 39 "LBASGroup2Nodes" "combatLBASGroup2Node1" "combatLBASGroup2Node2")
        as (_ & Hone & _); [unfold lbasLines; repeat constructor|].
      apply Hone. right. vm_compute. reflexivity.
    + destruct (Hl 40 "LBASGroup3Nodes" "combatLBASGroup3Node1" "combatLBASGroup3Node2")
        as (_ & _ & Hraw); [unfold lbasLines; repeat constructor|].
      apply Hraw. left. unfold blanking. do 3 right. left. vm_compute. reflexivity.
  - destruct (lbas_group_nodes_joined "SET_PYTHON_CONFIG" exampleFalseNode Hok')
      as (lines & Hd & Hl).
    exists lines. split; [exact Hd|].
    destruct (Hl 38 "LBASGroup1Nodes" "combatLBASGroup1Node1" "combatLBASGroup1Node2")
      as (Hboth & _); [by left|].
    etrans; [apply Hboth; vm_compute; reflexivity|]. vm_compute. reflexivity.
Defined.

Lemma combatOptions_booleans config b1 b2 b3 b4 :
  get config "combatOptionCheckFatigue" = Boolean b1 →
  get config "combatOptionReserveDocks" = Boolean b2 →
  get config "combatOptionPortCheck" = Boolean b3 →
  get config "combatOptionClearStop" = Boolean b4 →
  Actions.combatOptions config = miscOptionTags b1 b2 b3 b4.
Proof.
  intros H1 H2 H3 H4. unfold Actions.combatOptions. rewrite H1, H2, H3, H4.
  by destruct b1, b2, b3, b4.
Qed.

Lemma elem_of_miscOptionTags tag b1 b2 b3 b4 :
  tag ∈ miscOptionTags b1 b2 b3 b4
  ↔ (tag, true) ∈ [ ("CheckFatigue", b1); ("ReserveDocks", b2);
                    ("PortCheck", b3); ("ClearStop", b4) ].
Proof.
  unfold miscOptionTags. rewrite list_elem_of_fmap. split.
  - intros [[tag' flag] [Htag Hin]]. simpl in Htag. subst tag'.
    apply list_elem_of_filter in Hin as [Hflag Hin]. simpl in Hflag. by subst flag.
  - intros Hin. exists (tag, true). split; [done|]. by apply list_elem_of_filter.
Qed.

(** C6.  When the four misc-option fields hold booleans, the value of the
    MiscOptions line is the comma-joined list of the tags whose raw flag is
    [true], in the declaration order CheckFatigue, ReserveDocks, PortCheck,
    ClearStop; the normalized forms of the four flags, the texts [True] and
    [False], are all truthy and are not what is tested. *)
Theorem misc_options_from_raw_flags {actionType} (SET_PYTHON_CONFIG : actionType)
    (config : object) (checkFatigue reserveDocks portCheck clearStop : bool) :
  timesOk config = true →
  get config "combatOptionCheckFatigue" = Boolean checkFatigue →
  get config "combatOptionReserveDocks" = Boolean reserveDocks →
  get config "combatOptionPortCheck" = Boolean portCheck →
  get config "combatOptionClearStop" = Boolean clearStop →
  ∃ lines, dispatches SET_PYTHON_CONFIG config lines
    ∧ lines !! 42
      = Some ("MiscOptions: "
              ++ join "," (miscOptionTags checkFatigue reserveDocks portCheck clearStop))
    ∧ (∀ tag flag,
         (tag, flag) ∈ [ ("CheckFatigue", checkFatigue); ("ReserveDocks", reserveDocks);
                         ("PortCheck", portCheck); ("ClearStop", clearStop) ] →
         tag ∈ miscOptionTags checkFatigue reserveDocks portCheck clearStop ↔ flag = true)
    ∧ Forall (λ field, truthy (get (Actions.configTemp config) field) = true)
        [ "combatOptionCheckFatigue"; "combatOptionReserveDocks";
          "combatOptionPortCheck"; "combatOptionClearStop" ].
Proof.
  intros Hok H1 H2 H3 H4. exists (serialized config).
  split; [by apply dispatches_serialized|]. split; [|split].
  - rewrite serialized_miscOptions.
    by rewrite (combatOptions_booleans config _ _ _ _ H1 H2 H3 H4).
  - intros tag flag Hin. rewrite elem_of_miscOptionTags. split; [|by intros ->].
    intros Htrue.
    repeat (apply elem_of_cons in Hin as [Hin|Hin]);
      try (by apply elem_of_nil in Hin);
      repeat (apply elem_of_cons in Htrue as [Htrue|Htrue]);
      try (by apply elem_of_nil in Htrue); congruence.
  - repeat (apply Forall_cons; split; [rewrite get_configTemp by discriminate|]);
      [rewrite H1; by destruct checkFatigue | rewrite H2; by destruct reserveDocks
      | rewrite H3; by destruct portCheck | rewrite H4; by destruct clearStop
      | apply Forall_nil_2].
Qed.

(** CheckFatigue and PortCheck set, the other two flags [false]. *)
Lemma misc_options_from_raw_flags_witness :
  timesOk exampleMiscOptions = true
  ∧ ∃ lines, dispatches "SET_PYTHON_CONFIG" exampleMiscOptions lines
      ∧ lines !! 42 = Some "MiscOptions: CheckFatigue,PortCheck".
Proof.
  assert (Hok : timesOk exampleMiscOptions = true) by (vm_compute; reflexivity).
  split; [exact Hok|].
  destruct (misc_options_from_raw_flags
              "SET_PYTHON_CONFIG" exampleMiscOptions true false true false Hok)
    as (lines & Hd & Hl & _); try (vm_compute; reflexivity).
  exists lines. split; [exact Hd | exact Hl].
Defined.

Lemma slotBlanked_false ct criteria ships :
  slotBlanked ct criteria ships = false
  ↔ truthy (get ct criteria) = true ∧ truthy (get ct ships) = true.
Proof.
  unfold slotBlanked.
  destruct (truthy (get ct criteria)), (truthy (get ct ships)); simpl; intuition congruence.
Qed.

Lemma slotBlanked_true ct criteria ships :
  slotBlanked ct criteria ships = true
  ↔ truthy (get ct criteria) = false ∨ truthy (get ct ships) = false.
Proof.
  unfold slotBlanked.
  destruct (truthy (get ct criteria)), (truthy (get ct ships)); simpl; intuition congruence.
Qed.

Lemma slotLines_names i slot criteria ships :
  (i, slot, (criteria, ships)) ∈ slotLines →
  criteria ≠ "__proto__" ∧ ships ≠ "__proto__".
Proof.
  intros Hin. unfold slotLines in Hin.
  repeat (apply elem_of_cons in Hin as [[= -> -> -> ->]|Hin]);
    [..|by apply elem_of_nil in Hin]; split; discriminate.
Qed.

(** C7.  For each of the six ship-switcher slots: when the normalized
    criteria value or the normalized ships value (the raw value with [true],
    [false] and [null] replaced by [True], [False] and the empty string) is
    falsy, both lines of the slot print the empty text; when both are truthy,
    both lines print the string forms of the normalized values. *)
Theorem ship_switcher_slot_all_or_nothing {actionType} (SET_PYTHON_CONFIG : actionType)
    (config : object) :
  timesOk config = true →
  ∃ lines, dispatches SET_PYTHON_CONFIG config lines
    ∧ ∀ i slot criteria ships, (i, slot, (criteria, ships)) ∈ slotLines →
        let vc := normalize (get config criteria) in
        let vs := normalize (get config ships) in
        (truthy vc = false ∨ truthy vs = false →
         lines !! i = Some (slot ++ "Criteria: ")
         ∧ lines !! S i = Some (slot ++ "Ships: "))
        ∧ (truthy vc = true → truthy vs = true →
           lines !! i = Some (slot ++ "Criteria: " ++ ToString vc)
           ∧ lines !! S i = Some (slot ++ "Ships: " ++ ToString vs)).
Proof.
  intros Hok. exists (serialized config).
  split; [by apply dispatches_serialized|].
  pose proof (serialized_slotLines config) as Hs. rewrite Forall_forall in Hs.
  intros i slot criteria ships Hin vc vs.
  destruct (slotLines_names _ _ _ _ Hin) as [Hc Hs'].
  destruct (Hs _ Hin) as [-> ->]. unfold slotBlanked.
  rewrite !get_configTemp by done. fold vc vs. split.
  - intros [-> | ->]; [done | by rewrite orb_true_r].
  - by intros -> ->.
Qed.

(** Slot 1 with criteria and [null] ships, slot 2 with both; and slot 1
    with [false] as criteria, which prints as [False]. *)
Lemma ship_switcher_slot_all_or_nothing_witness :
  (timesOk exampleSlots = true
   ∧ ∃ lines, dispatches "SET_PYTHON_CONFIG" exampleSlots lines
       ∧ (lines !! 46 = Some "Slot1Criteria: " ∧ lines !! 47 = Some "Slot1Ships: ")
       ∧ (lines !! 48 = Some "Slot2Criteria: Cond"
          ∧ lines !! 49 = Some "Slot2Ships: ShipA"))
  ∧ (timesOk exampleFalseCriteria = true
     ∧ ∃ lines, dispatches "SET_PYTHON_CONFIG" exampleFalseCriteria lines
         ∧ lines !! 46 = Some "Slot1Criteria: False"
         ∧ lines !! 47 = Some "Slot1Ships: ShipA").
Proof.
  assert (Hok : timesOk exampleSlots = true) by (vm_compute; reflexivity).
  assert (Hok' : timesOk exampleFalseCriteria = true) by (vm_compute; reflexivity).
  split; (split; [assumption|]).
  - destruct (ship_switcher_slot_all_or_nothing "SET_PYTHON_CONFIG" exampleSlots Hok)
      as (lines & Hd & Hl).
    exists lines. split; [exact Hd|]. split.
    + destruct (Hl 46 "Slot1" "shipSwitcherSlot1Criteria" "shipSwitcherSlot1Ships")
        as [Hblank _]; [by left|].
      apply Hblank. right. vm_compute. reflexivity.
    + destruct (Hl 48 "Slot2" "shipSwitcherSlot2Criteria" "shipSwitcherSlot2Ships")
        as [_ Hpass]; [unfold slotLines; repeat constructor|].
      destruct Hpass as [Hc Hs]; [vm_compute; reflexivity..|].
      split; (etrans; [eassumption|]); vm_compute; reflexivity.
  - destruct (ship_switcher_slot_all_or_nothing
                "SET_PYTHON_CONFIG" exampleFalseCriteria Hok')
      as (lines & Hd & Hl).
    exists lines. split; [exact Hd|].
    destruct (Hl 46 "Slot1" "shipSwitcherSlot1Criteria" "shipSwitcherSlot1Ships")
      as [_ Hpass]; [by left|].
    destruct Hpass as [Hc Hs]; [vm_compute; reflexivity..|].
    split; (etrans; [eassumption|]); vm_compute; reflexivity.
Defined.

(** C10 (as amended).  The blanking test of a slot reads the normalized
    values, and [false] is normalized to the truthy text [False]: a slot
    whose criteria is [false] and whose normalized ships value is truthy is
    not blanked, and its criteria line prints [False].  A slot is blanked
    exactly when its criteria or its ships field is absent, [null], the empty
    string, the number 0 or [NaN]; then both lines print the empty text, and
    otherwise both print the normalized values. *)
Theorem ship_switcher_blanking_triggers {actionType} (SET_PYTHON_CONFIG : actionType)
    (config : object) :
  timesOk config = true →
  ∃ lines, dispatches SET_PYTHON_CONFIG config lines
    ∧ ∀ i slot criteria ships, (i, slot, (criteria, ships)) ∈ slotLines →
        let ct := Actions.configTemp config in
        (get config criteria = Boolean false → truthy (get ct ships) = true →
         slotBlanked ct criteria ships = false
         ∧ lines !! i = Some (slot ++ "Criteria: False")
         ∧ lines !! S i = Some (slot ++ "Ships: " ++ ToString (get ct ships)))
        ∧ (slotBlanked ct criteria ships = true
           ↔ blanking (get config criteria) ∨ blanking (get config ships))
        ∧ (slotBlanked ct criteria ships = true →
           lines !! i = Some (slot ++ "Criteria: ")
           ∧ lines !! S i = Some (slot ++ "Ships: "))
        ∧ (slotBlanked ct criteria ships = false →
           lines !! i = Some (slot ++ "Criteria: " ++ ToString (get ct criteria))
           ∧ lines !! S i = Some (slot ++ "Ships: " ++ ToString (get ct ships))).
Proof.
  intros Hok. exists (serialized config).
  split; [by apply dispatches_serialized|].
  pose proof (serialized_slotLines config) as Hs. rewrite Forall_forall in Hs.
  intros i slot criteria ships Hin ct.
  destruct (slotLines_names _ _ _ _ Hin) as [Hcname Hsname].
  destruct (Hs _ Hin) as [-> ->]. fold ct. repeat split.
  - apply slotBlanked_false. subst ct. split; [|done].
    rewrite get_configTemp by done. by match goal with H : get _ _ = _ |- _ => rewrite H end.
  - assert (slotBlanked ct criteria ships = false) as ->.
    { apply slotBlanked_false. subst ct. split; [|done].
      rewrite get_configTemp by done. by match goal with H : get _ _ = _ |- _ => rewrite H end. }
    subst ct. rewrite get_configTemp by done.
    by match goal with H : get _ _ = _ |- _ => rewrite H end.
  - assert (slotBlanked ct criteria ships = false) as ->; [|done].
    apply slotBlanked_false. subst ct. split; [|done].
    rewrite get_configTemp by done. by match goal with H : get _ _ = _ |- _ => rewrite H end.
  - intros Hb%slotBlanked_true. subst ct. rewrite !get_configTemp in Hb by done.
    by rewrite !truthy_normalize_false in Hb.
  - intros Hb. apply slotBlanked_true. subst ct. rewrite !get_configTemp by done.
    by rewrite !truthy_normalize_false.
  - by match goal with H : slotBlanked _ _ _ = _ |- _ => rewrite H end.
  - by match goal with H : slotBlanked _ _ _ = _ |- _ => rewrite H end.
  - by match goal with H : slotBlanked _ _ _ = _ |- _ => rewrite H end.
  - by match goal with H : slotBlanked _ _ _ = _ |- _ => rewrite H end.
Qed.

(** Slot 1 with [false] as criteria is printed, slot 2 with [NaN] as
    criteria is blanked. *)
Lemma ship_switcher_blanking_triggers_witness :
  timesOk exampleFalseCriteria = true
  ∧ ∃ lines, dispatches "SET_PYTHON_CONFIG" exampleFalseCriteria lines
      ∧ (lines !! 46 = Some "Slot1Criteria: False" ∧ lines !! 47 = Some "Slot1Ships: ShipA")
      ∧ (lines !! 48 = Some "Slot2Criteria: " ∧ lines !! 49 = Some "Slot2Ships: ").
Proof.
  assert (Hok : timesOk exampleFalseCriteria = true) by (vm_compute; reflexivity).
  split; [exact Hok|].
  destruct (ship_switcher_blanking_triggers "SET_PYTHON_CONFIG" exampleFalseCriteria Hok)
    as (lines & Hd & Hl).
  exists lines. split; [exact Hd|]. split.
  - destruct (Hl 46 "Slot1" "shipSwitcherSlot1Criteria" "shipSwitcherSlot1Ships")
      as [Hfalse _]; [by left|].
    destruct Hfalse as (_ & Hc & Hs); [vm_compute; reflexivity..|].
    split; [exact Hc|]. etrans; [exact Hs|]. vm_compute. reflexivity.
  - destruct (Hl 48 "Slot2" "shipSwitcherSlot2Criteria" "shipSwitcherSlot2Ships")
      as (_ & Hiff & Hblank & _); [unfold slotLines; repeat constructor|].
    apply Hblank, Hiff. left. unfold blanking. do 4 right. vm_compute. reflexivity.
Defined.

(** C10 as stated fails: with [NaN] as the criteria of slot 1 and a
    non-empty ships text, neither field is absent, [null], the empty string
    or the number 0, and yet the slot is blanked. *)
Lemma ship_switcher_blanked_by_NaN :
  Forall (λ field, ¬ (get exampleNaNCriteria field = Undefined ∨ get exampleNaNCriteria field = Null
                      ∨ get exampleNaNCriteria field = Str "" ∨ get exampleNaNCriteria field = Num (Int 0)))
    [ "shipSwitcherSlot1Criteria"; "shipSwitcherSlot1Ships" ]
  ∧ slotBlanked (Actions.configTemp exampleNaNCriteria)
      "shipSwitcherSlot1Criteria" "shipSwitcherSlot1Ships" = true
  ∧ ∃ lines, dispatches "SET_PYTHON_CONFIG" exampleNaNCriteria lines
      ∧ lines !! 46 = Some "Slot1Criteria: "
      ∧ lines !! 47 = Some "Slot1Ships: ".
Proof.
  split; [|split].
  - repeat (apply Forall_cons; split;
            [intros [H|[H|[H|H]]]; vm_compute in H; discriminate H|]).
    apply Forall_nil_2.
  - vm_compute. reflexivity.
  - exists (serialized exampleNaNCriteria). split; [apply dispatches_serialized|split];
      vm_compute; reflexivity.
Qed.

(** The values printed on the key lines, section by section. *)
Lemma serialized_renderLayout config :
  ∃ values,
    Forall2 (λ (section : string * list string) vs, length section.2 = length vs)
      documentedLayout values
    ∧ serialized config = renderLayout documentedLayout values.
Proof.
  unfold serialized, Actions.pythonConfig.
  generalize (Actions.blankSlots (Actions.configTemp config)). intros ct.
  match goal with
  | |- context [ "SleepStartTime: " ++ ?t1 ] => generalize t1; intros t1'
  end.
  match goal with
  | |- context [ "ExpeditionSleepStartTime: " ++ ?t2 ] => generalize t2; intros t2'
  end.
  match goal with
  | |- context [ "CombatSleepStartTime: " ++ ?t3 ] => generalize t3; intros t3'
  end.
  match goal with
  | |- context [ "RepairTimeLimit: " ++ ?t4 ] => generalize t4; intros t4'
  end.
  match goal with
  | |- context [ "LBASGroup1Nodes: " ++ ?g1 ] => generalize g1; intros g1'
  end.
  match goal with
  | |- context [ "LBASGroup2Nodes: " ++ ?g2 ] => generalize g2; intros g2'
  end.
  match goal with
  | |- context [ "LBASGroup3Nodes: " ++ ?g3 ] => generalize g3; intros g3'
  end.
  match goal with
  | |- context [ "MiscOptions: " ++ ?o ] => generalize o; intros o'
  end.
  set (f := λ k, ToString (get ct k)).
  exists
    [ [f "generalProgram"; f "generalJSTOffset"; f "generalPause"];
      [f "scheduledSleepSleepEnabled"; t1'; f "scheduledSleepSleepLength";
       f "scheduledSleepExpeditionSleepEnabled"; t2'; f "scheduledSleepExpeditionSleepLength";
       f "scheduledSleepCombatSleepEnabled"; t3'; f "scheduledSleepCombatSleepLength"];
      [f "expeditionsEnabled"; f "expeditionsFleet2"; f "expeditionsFleet3";
       f "expeditionsFleet4"];
      [f "pvpEnabled"];
      [f "combatEnabled"; f "combatEngine"; f "combatMap"; f "combatFleetMode";
       f "combatCombatNodes"; f "combatNodeSelects"; f "combatFormations";
       f "combatNightBattles"; f "combatRetreatLimit"; f "combatRepairLimit";
       t4'; f "combatLBASGroups"; g1'; g2'; g3'; f "combatForceRetreatNodes"; o'];
      [f "shipSwitcherEnabled";
       f "shipSwitcherSlot1Criteria"; f "shipSwitcherSlot1Ships";
       f "shipSwitcherSlot2Criteria"; f "shipSwitcherSlot2Ships";
       f "shipSwitcherSlot3Criteria"; f "shipSwitcherSlot3Ships";
       f "shipSwitcherSlot4Criteria"; f "shipSwitcherSlot4Ships";
       f "shipSwitcherSlot5Criteria"; f "shipSwitcherSlot5Ships";
       f "shipSwitcherSlot6Criteria"; f "shipSwitcherSlot6Ships"];
      [f "questsEnabled"] ].
  split; [|reflexivity].
  unfold documentedLayout. repeat (apply Forall2_cons; split; [reflexivity|]).
  apply Forall2_nil_2.
Qed.

(** C2.  The output lists the sections General, ScheduledSleep, Expeditions,
    PvP, Combat, ShipSwitcher, Quests in this order, each as its header line
    followed by its keys in the documented order, one line [Key: Value] per
    key with one space after the colon, and exactly one blank line between
    two consecutive sections. *)
Theorem output_follows_documented_layout {actionType} (SET_PYTHON_CONFIG : actionType)
    (config : object) :
  timesOk config = true →
  ∃ lines values,
    dispatches SET_PYTHON_CONFIG config lines
    ∧ Forall2 (λ (section : string * list string) vs, length section.2 = length vs)
        documentedLayout values
    ∧ lines = renderLayout documentedLayout values.
Proof.
  intros Hok. destruct (serialized_renderLayout config) as (values & Hshape & Hlines).
  exists (serialized config), values.
  split; [by apply dispatches_serialized | done].
Qed.

(** The layout of the serialized defaults. *)
Lemma output_follows_documented_layout_witness :
  timesOk exampleDefaults = true
  ∧ ∃ lines values,
      dispatches "SET_PYTHON_CONFIG" exampleDefaults lines
      ∧ Forall2 (λ (section : string * list string) vs, length section.2 = length vs)
          documentedLayout values
      ∧ lines = renderLayout documentedLayout values.
Proof.
  assert (Hok : timesOk exampleDefaults = true) by (vm_compute; reflexivity).
  split; [exact Hok|].
  exact (output_follows_documented_layout "SET_PYTHON_CONFIG" exampleDefaults Hok).
Defined.

Lemma skeleton_indices :
  length skeleton = 61
  ∧ indicesWhere isHeader skeleton = [0; 5; 16; 22; 25; 44; 59]
  ∧ indicesWhere isBlank skeleton = [4; 15; 21; 24; 43; 58].
Proof. repeat split; vm_compute; reflexivity. Qed.

Lemma serialized_fits_skeleton config : Forall2 fits skeleton (serialized config).
Proof.
  unfold serialized, Actions.pythonConfig.
  generalize (Actions.blankSlots (Actions.configTemp config)). intros ct.
  let s := eval vm_compute in skeleton in change skeleton with s.
  repeat (apply Forall2_cons; split;
          [first [reflexivity | eexists; reflexivity]|]).
  apply Forall2_nil_2.
Qed.

(** C9.  Whatever the field values, the output has 61 lines; the seven
    section headers are at the indices 0, 5, 16, 22, 25, 44 and 59, the six
    blank lines at 4, 15, 21, 24, 43 and 58, and every other line is its
    fixed key, a colon and a space, followed by a value. *)
Theorem output_has_fixed_skeleton {actionType} (SET_PYTHON_CONFIG : actionType)
    (config : object) :
  timesOk config = true →
  ∃ lines, dispatches SET_PYTHON_CONFIG config lines
    ∧ length lines = 61
    ∧ Forall2 fits skeleton lines
    ∧ indicesWhere isHeader skeleton = [0; 5; 16; 22; 25; 44; 59]
    ∧ indicesWhere isBlank skeleton = [4; 15; 21; 24; 43; 58].
Proof.
  intros Hok. exists (serialized config).
  split; [by apply dispatches_serialized|].
  split; [reflexivity|]. split; [apply serialized_fits_skeleton|].
  apply skeleton_indices.
Qed.

(** The skeleton of an output with a blanked and a filled slot. *)
Lemma output_has_fixed_skeleton_witness :
  timesOk exampleSlots = true
  ∧ ∃ lines, dispatches "SET_PYTHON_CONFIG" exampleSlots lines
      ∧ length lines = 61
      ∧ Forall2 fits skeleton lines.
Proof.
  assert (Hok : timesOk exampleSlots = true) by (vm_compute; reflexivity).
  split; [exact Hok|].
  destruct (output_has_fixed_skeleton "SET_PYTHON_CONFIG" exampleSlots Hok)
    as (lines & Hd & Hlen & Hfits & _).
  exists lines. repeat split; assumption.
Defined.

(** C8.  Each reducer returns the [config] carried by its own set-action,
    whatever the state, and returns the state it was given on any other
    action; called without a state ([undefined]) on another action,
    [jsonConfig] returns the default ConfigRecord and [pythonConfig] the empty
    array.  In particular each stores what its action creator wraps. *)
Theorem reducers_replace_or_keep {actionType} `{EqDecision actionType}
    (SET_JSON_CONFIG SET_PYTHON_CONFIG : actionType) (env : Reducers.environment)
    (state : data) (a : action actionType) :
  ((type a = SET_JSON_CONFIG →
    Reducers.jsonConfig SET_JSON_CONFIG env state a = config a)
   ∧ (type a ≠ SET_JSON_CONFIG → state ≠ DUndefined →
      Reducers.jsonConfig SET_JSON_CONFIG env state a = state)
   ∧ (type a ≠ SET_JSON_CONFIG →
      Reducers.jsonConfig SET_JSON_CONFIG env DUndefined a
      = DRecord (Reducers.jsonConfigDefaults env))
   ∧ (∀ c, Reducers.jsonConfig SET_JSON_CONFIG env state
             (Actions.setJsonConfigSuccess SET_JSON_CONFIG c)
           = DRecord c))
  ∧ ((type a = SET_PYTHON_CONFIG → Reducers.pythonConfig SET_PYTHON_CONFIG state a = config a)
     ∧ (type a ≠ SET_PYTHON_CONFIG → state ≠ DUndefined →
        Reducers.pythonConfig SET_PYTHON_CONFIG state a = state)
     ∧ (type a ≠ SET_PYTHON_CONFIG →
        Reducers.pythonConfig SET_PYTHON_CONFIG DUndefined a = DLines [])
     ∧ (∀ l, Reducers.pythonConfig SET_PYTHON_CONFIG state
               (Actions.setPythonConfigSuccess SET_PYTHON_CONFIG l)
             = DLines l)).
Proof.
  unfold Reducers.jsonConfig, Reducers.pythonConfig. split; repeat split.
  - intros Ha. by rewrite decide_True.
  - intros Ha Hs. rewrite decide_False by done. by destruct state.
  - intros Ha. by rewrite decide_False.
  - intros c. by rewrite decide_True.
  - intros Ha. by rewrite decide_True.
  - intros Ha Hs. rewrite decide_False by done. by destruct state.
  - intros Ha. by rewrite decide_False.
  - intros l. by rewrite decide_True.
Qed.

(** A set-python action leaves the state of [jsonConfig] alone and
    replaces the state of [pythonConfig]. *)
Lemma reducers_replace_or_keep_witness :
  Reducers.jsonConfig "SET_JSON_CONFIG" exampleEnvironment (DRecord exampleSlots)
    (mkAction "SET_PYTHON_CONFIG" (DLines ["[General]"]))
  = DRecord exampleSlots
  ∧ Reducers.pythonConfig "SET_PYTHON_CONFIG" (DRecord exampleSlots)
      (mkAction "SET_PYTHON_CONFIG" (DLines ["[General]"]))
    = DLines ["[General]"].
Proof.
  destruct (reducers_replace_or_keep "SET_JSON_CONFIG" "SET_PYTHON_CONFIG" exampleEnvironment
              (DRecord exampleSlots) (mkAction "SET_PYTHON_CONFIG" (DLines ["[General]"])))
    as [(_ & Hkeep & _) (Hset & _)].
  split.
  - apply Hkeep; discriminate.
  - apply Hset. reflexivity.
Defined.

(** The two files together: dispatching [setPythonConfig(config)] into the
    [pythonConfig] reducer leaves the serialized lines as the state. *)
Lemma pythonConfig_receives_serialized {actionType} `{EqDecision actionType}
    (SET_PYTHON_CONFIG : actionType) (config : object) (state : data) :
  timesOk config = true →
  Actions.setPythonConfig SET_PYTHON_CONFIG config
    (Reducers.pythonConfig SET_PYTHON_CONFIG state)
  = Return (DLines (serialized config)).
Proof.
  intros Hok. rewrite setPythonConfig_spec, Hok.
  unfold Reducers.pythonConfig. by rewrite decide_True.
Qed.

(** ** Further properties of the action creators *)

(** *** The general pass *)

Lemma configTemp_eq_fmap config :
  Actions.configTemp config = normalize <$> delete "__proto__" config.
Proof.
  apply map_eq. intros k. rewrite lookup_configTemp, lookup_fmap, lookup_delete.
  destruct (decide (k = "__proto__")) as [->|Hk].
  - by rewrite decide_True.
  - by rewrite decide_False.
Qed.

Lemma normalize_idemp v : normalize (normalize v) = normalize v.
Proof. by destruct v as [| |[]| | |]. Qed.

(** X1.  The [reduce] over the keys of [config] is a pointwise map over its
    properties other than [__proto__]: the object it builds has exactly those
    properties, each holding the normalized value of the property of [config];
    an own property [__proto__] of [config] gives no property. *)
Theorem configTemp_pointwise config :
  Actions.configTemp config = normalize <$> delete "__proto__" config
  ∧ dom (Actions.configTemp config) = dom config ∖ {["__proto__"]}
  ∧ (∀ k v, k ≠ "__proto__" → config !! k = Some v →
       Actions.configTemp config !! k = Some (normalize v))
  ∧ Actions.configTemp config !! "__proto__" = None.
Proof.
  rewrite configTemp_eq_fmap. repeat split.
  - by rewrite dom_fmap_L, dom_delete_L.
  - intros k v Hk Hv. by rewrite lookup_fmap, lookup_delete_ne, Hv.
  - by rewrite lookup_fmap, lookup_delete_eq.
Qed.

(** The defaults, and the defaults with an own [__proto__] as
    [JSON.parse] can produce it. *)
Lemma configTemp_pointwise_witness :
  Actions.configTemp exampleDefaults !! "generalPause" = Some (Str "False")
  ∧ Actions.configTemp (<["__proto__" := Str "x"]> exampleDefaults) !! "generalPause"
    = Some (Str "False").
Proof.
  split.
  - apply (proj1 (proj2 (proj2 (configTemp_pointwise exampleDefaults)))
             "generalPause" (Boolean false)); [discriminate | vm_compute; reflexivity].
  - apply (proj1 (proj2 (proj2 (configTemp_pointwise
                                  (<["__proto__" := Str "x"]> exampleDefaults))))
             "generalPause" (Boolean false)); [discriminate | vm_compute; reflexivity].
Defined.

(** X2.  After the general pass no property holds a native boolean or
    [null], and reading any property, present or not, gives neither. *)
Theorem configTemp_no_boolean_no_null config :
  map_Forall (λ _ v, v ≠ Null ∧ ∀ b, v ≠ Boolean b) (Actions.configTemp config)
  ∧ ∀ k, get (Actions.configTemp config) k ≠ Null
         ∧ ∀ b, get (Actions.configTemp config) k ≠ Boolean b.
Proof.
  split.
  - intros k v. rewrite lookup_configTemp.
    destruct (decide (k = "__proto__")); [done|].
    destruct (config !! k) as [[| |[]| | |]|]; intros [= <-]; split; try intros b; discriminate.
  - intros k. unfold get. rewrite lookup_configTemp.
    destruct (decide (k = "__proto__")); [split; try intros b; discriminate|].
    destruct (config !! k) as [[| |[]| | |]|]; split; try intros b; discriminate.
Qed.

(** X3.  The general pass is idempotent: run on its own result, it changes
    nothing. *)
Theorem configTemp_idempotent config :
  Actions.configTemp (Actions.configTemp config) = Actions.configTemp config.
Proof.
  rewrite !configTemp_eq_fmap. apply map_eq. intros k.
  rewrite !lookup_fmap, !lookup_delete, !lookup_fmap, lookup_delete.
  destruct (decide ("__proto__" = k)); [done|].
  destruct (config !! k); simpl; [|done].
  by rewrite normalize_idemp.
Qed.

(** *** The overrides on arbitrary values *)

Lemma timeText_falsy v : truthy v = false → timeText v = "".
Proof. by destruct v. Qed.

(** X5.  A time-of-day field holding any falsy value prints the empty text:
    not only [null] and a missing field, but also [false], [''], [0] and
    [NaN]; in particular [false] there does not print as [False]. *)
Theorem falsy_time_field_prints_empty {actionType} (SET_PYTHON_CONFIG : actionType)
    (config : object) :
  timesOk config = true →
  ∃ lines, dispatches SET_PYTHON_CONFIG config lines
    ∧ ∀ i key field, (i, key, field) ∈ timeLines →
        truthy (get config field) = false → lines !! i = Some (key ++ ": ").
Proof.
  intros Hok. exists (serialized config).
  split; [by apply dispatches_serialized|].
  pose proof (serialized_timeLines config) as Ht. rewrite Forall_forall in Ht.
  intros i key field Hin Hfalsy. by rewrite (Ht _ Hin), timeText_falsy.
Qed.

Lemma falsy_time_field_prints_empty_witness :
  timesOk exampleFalsyTimes = true
  ∧ ∃ lines, dispatches "SET_PYTHON_CONFIG" exampleFalsyTimes lines
      ∧ lines !! 7 = Some "SleepStartTime: "
      ∧ lines !! 36 = Some "RepairTimeLimit: ".
Proof.
  assert (Hok : timesOk exampleFalsyTimes = true) by (vm_compute; reflexivity).
  split; [exact Hok|].
  destruct (falsy_time_field_prints_empty "SET_PYTHON_CONFIG" exampleFalsyTimes Hok)
    as (lines & Hd & Hl).
  exists lines. split; [exact Hd|]. split.
  - apply (Hl 7 "SleepStartTime" "scheduledSleepSleepStartTime");
      [by left | vm_compute; reflexivity].
  - apply (Hl 36 "RepairTimeLimit" "combatRepairTimeLimit");
      [unfold timeLines; repeat constructor | vm_compute; reflexivity].
Defined.

Lemma append_comma_nonempty (a b : string) : a ++ "," ++ b ≠ "".
Proof. by destruct a. Qed.

(** X6.  An LBAS group line is empty exactly when one of its two node
    fields is absent, [null], the empty string, the number 0 or [NaN]; a node
    holding a boolean does not empty the line, it prints as [True] or
    [False]. *)
Theorem lbas_line_empty_iff {actionType} (SET_PYTHON_CONFIG : actionType)
    (config : object) :
  timesOk config = true →
  ∃ lines, dispatches SET_PYTHON_CONFIG config lines
    ∧ ∀ i key node1 node2, (i, key, (node1, node2)) ∈ lbasLines →
        (lines !! i = Some (key ++ ": ")
         ↔ blanking (get config node1) ∨ blanking (get config node2))
        ∧ (∀ b, get config node1 = Boolean b →
             ¬ blanking (get config node2) →
             lines !! i
             = Some (key ++ ": " ++ (if b then "True" else "False") ++ ","
                     ++ ToString (normalize (get config node2)))).
Proof.
  intros Hok. exists (serialized config).
  split; [by apply dispatches_serialized|].
  pose proof (serialized_lbasLines config) as Hg. rewrite Forall_forall in Hg.
  intros i key node1 node2 Hin.
  destruct (lbasLines_names _ _ _ _ Hin) as [Hname1 Hname2].
  rewrite (Hg _ Hin), lbasNodes_spec, !get_configTemp by done.
  rewrite <- !truthy_normalize_false. split.
  - destruct (truthy (normalize (get config node1))),
      (truthy (normalize (get config node2))); simpl.
    + split; [|intros [?|?]; discriminate].
      intros [= Heq]. apply (inj (String.append key)), (inj (String.append ": ")) in Heq.
      by apply append_comma_nonempty in Heq.
    + split; auto.
    + split; auto.
    + split; auto.
  - intros b Hb Hn2. rewrite Hb.
    destruct (truthy (normalize (get config node2))) eqn:Ht;
      [|by apply truthy_normalize_false in Ht].
    by destruct b.
Qed.

Lemma lbas_line_empty_iff_witness :
  timesOk exampleFalseNode = true
  ∧ ∃ lines, dispatches "SET_PYTHON_CONFIG" exampleFalseNode lines
      ∧ lines !! 38 = Some "LBASGroup1Nodes: False,B3"
      ∧ lines !! 39 = Some "LBASGroup2Nodes: ".
Proof.
  assert (Hok : timesOk exampleFalseNode = true) by (vm_compute; reflexivity).
  split; [exact Hok|].
  destruct (lbas_line_empty_iff "SET_PYTHON_CONFIG" exampleFalseNode Hok)
    as (lines & Hd & Hl).
  exists lines. split; [exact Hd|]. split.
  - destruct (Hl 38 "LBASGroup1Nodes" "combatLBASGroup1Node1" "combatLBASGroup1Node2")
      as [_ Hbool]; [by left|].
    etrans; [apply (Hbool false); [vm_compute; reflexivity|]|vm_compute; reflexivity].
    unfold blanking. intros [H|[H|[H|[H|H]]]]; vm_compute in H; discriminate H.
  - destruct (Hl 39 "LBASGroup2Nodes" "combatLBASGroup2Node1" "combatLBASGroup2Node2")
      as [Hiff _]; [unfold lbasLines; repeat constructor|].
    apply Hiff. left. unfold blanking. do 4 right. vm_compute. reflexivity.
Defined.

Lemma combatOptions_truthy config :
  Actions.combatOptions config
  = miscOptionTags (truthy (get config "combatOptionCheckFatigue"))
      (truthy (get config "combatOptionReserveDocks"))
      (truthy (get config "combatOptionPortCheck"))
      (truthy (get config "combatOptionClearStop")).
Proof.
  unfold Actions.combatOptions.
  by destruct (truthy (get config "combatOptionCheckFatigue")),
    (truthy (get config "combatOptionReserveDocks")),
    (truthy (get config "combatOptionPortCheck")),
    (truthy (get config "combatOptionClearStop")).
Qed.

(** X7.  Whatever the four misc-option fields hold, a tag is listed exactly
    when the raw value of its field is truthy: a non-empty string (even the
    text [False]) or a non-zero number lists the tag, a missing field, [null],
    [''], [0] and [NaN] do not; and the tags listed keep the declaration
    order and never repeat. *)
Theorem misc_options_by_truthiness {actionType} (SET_PYTHON_CONFIG : actionType)
    (config : object) :
  timesOk config = true →
  ∃ lines tags,
    dispatches SET_PYTHON_CONFIG config lines
    ∧ lines !! 42 = Some ("MiscOptions: " ++ join "," tags)
    ∧ tags = miscOptionTags (truthy (get config "combatOptionCheckFatigue"))
               (truthy (get config "combatOptionReserveDocks"))
               (truthy (get config "combatOptionPortCheck"))
               (truthy (get config "combatOptionClearStop"))
    ∧ tags `sublist_of` ["CheckFatigue"; "ReserveDocks"; "PortCheck"; "ClearStop"].
Proof.
  intros Hok. exists (serialized config), (Actions.combatOptions config).
  split; [by apply dispatches_serialized|]. split; [apply serialized_miscOptions|].
  rewrite combatOptions_truthy. split; [done|].
  destruct (truthy (get config "combatOptionCheckFatigue")),
    (truthy (get config "combatOptionReserveDocks")),
    (truthy (get config "combatOptionPortCheck")),
    (truthy (get config "combatOptionClearStop"));
    vm_compute; repeat first [apply sublist_nil | apply sublist_skip | apply sublist_cons].
Qed.

Lemma misc_options_by_truthiness_witness :
  timesOk exampleTruthyOptions = true
  ∧ ∃ lines, dispatches "SET_PYTHON_CONFIG" exampleTruthyOptions lines
      ∧ lines !! 42 = Some "MiscOptions: ReserveDocks,ClearStop".
Proof.
  assert (Hok : timesOk exampleTruthyOptions = true) by (vm_compute; reflexivity).
  split; [exact Hok|].
  destruct (misc_options_by_truthiness "SET_PYTHON_CONFIG" exampleTruthyOptions Hok)
    as (lines & tags & Hd & Hl & Htags & _).
  exists lines. split; [exact Hd|]. rewrite Hl, Htags. vm_compute. reflexivity.
Defined.

(** *** What [setPythonConfig] reads *)

Ltac in_readFields := apply (bool_decide_unpack _); vm_compute; exact I.

Lemma slotKeys_readFields k : k ∈ slotKeys slots → k ∈ readFields.
Proof.
  intros Hk. unfold readFields. rewrite !elem_of_app. by do 4 right.
Qed.

Lemma readFields_names k : k ∈ readFields → k ≠ "__proto__".
Proof.
  intros Hk ->. revert Hk. apply (bool_decide_unpack _). vm_compute. exact I.
Qed.

Lemma agree_blankSlots c1 c2 :
  (∀ f, f ∈ readFields → get c1 f = get c2 f) →
  ∀ k, k ∈ readFields →
    get (Actions.blankSlots (Actions.configTemp c1)) k
    = get (Actions.blankSlots (Actions.configTemp c2)) k.
Proof.
  intros Hagree k Hk. rewrite !get_blankSlots.
  destruct (slotOf k slots) as [p|] eqn:Hp.
  - apply slotOf_Some in Hp as (_ & Hp1%slotKeys_readFields & Hp2%slotKeys_readFields).
    unfold slotBlanked. rewrite !get_configTemp by by apply readFields_names.
    by rewrite (Hagree _ Hp1), (Hagree _ Hp2), (Hagree _ Hk).
  - rewrite !get_configTemp by by apply readFields_names.
    by rewrite (Hagree _ Hk).
Qed.

Lemma agree_serialized c1 c2 :
  (∀ f, f ∈ readFields → get c1 f = get c2 f) → serialized c1 = serialized c2.
Proof.
  intros Hagree.
  unfold serialized, Actions.pythonConfig, Actions.lbasNodes, Actions.combatOptions.
  cbv beta zeta.
  repeat match goal with
         | |- context [get (Actions.blankSlots (Actions.configTemp c1)) ?k] =>
             rewrite (agree_blankSlots c1 c2 Hagree k) by in_readFields
         end.
  rewrite !get_configTemp by discriminate.
  repeat match goal with
         | |- context [get c1 ?k] => rewrite (Hagree k) by in_readFields
         end.
  reflexivity.
Qed.

(** X4.  The result of [setPythonConfig], the lines dispatched or the
    exception thrown, depends on [config] only through the properties it
    reads by name: two ConfigRecords that agree on [readFields] give the same
    result, whatever else they hold. *)
Theorem setPythonConfig_depends_on_readFields {actionType R}
    (SET_PYTHON_CONFIG : actionType) (c1 c2 : object) (dispatch : action actionType → R) :
  (∀ f, f ∈ readFields → get c1 f = get c2 f) →
  Actions.setPythonConfig SET_PYTHON_CONFIG c1 dispatch
  = Actions.setPythonConfig SET_PYTHON_CONFIG c2 dispatch.
Proof.
  intros Hagree. rewrite !setPythonConfig_spec, (agree_serialized c1 c2 Hagree).
  unfold timesOk.
  repeat match goal with
         | |- context [get c1 ?k] => rewrite (Hagree k) by in_readFields
         end.
  reflexivity.
Qed.

(** Changing, adding and removing properties that are not read leaves the
    result of the defaults as it is. *)
Lemma setPythonConfig_depends_on_readFields_witness :
  (∀ f, f ∈ readFields → get exampleUnreadChanged f = get exampleDefaults f)
  ∧ Actions.setPythonConfig "SET_PYTHON_CONFIG" exampleUnreadChanged id
    = Actions.setPythonConfig "SET_PYTHON_CONFIG" exampleDefaults id.
Proof.
  assert (Hagree : ∀ f, f ∈ readFields →
                        get exampleUnreadChanged f = get exampleDefaults f).
  { apply Forall_forall.
    let l := eval vm_compute in readFields in change readFields with l.
    repeat (apply Forall_cons; split; [vm_compute; reflexivity|]).
    apply Forall_nil_2. }
  split; [exact Hagree|].
  exact (setPythonConfig_depends_on_readFields
           "SET_PYTHON_CONFIG" exampleUnreadChanged exampleDefaults id Hagree).
Defined.

(** *** The blanking of the slots as an operation on objects *)

Lemma lookup_blankSlot ct c s k :
  Actions.blankSlot c s ct !! k
  = if bool_decide (k = c ∨ k = s)
    then (if slotBlanked ct c s then Some (Str "") else ct !! k)
    else ct !! k.
Proof.
  unfold Actions.blankSlot. fold (slotBlanked ct c s).
  destruct (slotBlanked ct c s); [|by case_bool_decide].
  case_bool_decide as Hk.
  - destruct (decide (k = s)) as [->|Hs]; [by rewrite lookup_insert_eq|].
    destruct Hk as [->|?]; [|done].
    by rewrite lookup_insert_ne, lookup_insert_eq.
  - rewrite !lookup_insert_ne; [done|intros ->; tauto..].
Qed.

Lemma lookup_foldl_blankSlot l :
  NoDup (slotKeys l) →
  ∀ ct k,
    foldl (λ ct p, Actions.blankSlot p.1 p.2 ct) ct l !! k
    = match slotOf k l with
      | Some p => if slotBlanked ct p.1 p.2 then Some (Str "") else ct !! k
      | None => ct !! k
      end.
Proof.
  induction l as [|p l IH]; [done|].
  rewrite slotKeys_cons. intros (Hp1 & (Hp2 & Hl)%NoDup_cons)%NoDup_cons ct k.
  apply not_elem_of_cons in Hp1 as [Hp12 Hp1].
  simpl. rewrite IH by done. case_bool_decide as Hk.
  - rewrite slotOf_None by (by destruct Hk as [->| ->]).
    by rewrite lookup_blankSlot, bool_decide_true.
  - rewrite (lookup_blankSlot _ _ _ k), bool_decide_false by done.
    destruct (slotOf k l) as [q|] eqn:Hq; [|done].
    apply slotOf_Some in Hq as (_ & Hq1 & Hq2).
    unfold slotBlanked at 1. rewrite !get_blankSlot.
    rewrite !bool_decide_false; [done|unfold not in *; intros [?|?]; congruence..].
Qed.

Lemma NoDup_slotKeys : NoDup (slotKeys slots).
Proof. apply (bool_decide_unpack _). by vm_compute. Qed.

Lemma lookup_blankSlots ct k :
  Actions.blankSlots ct !! k
  = match slotOf k slots with
    | Some p => if slotBlanked ct p.1 p.2 then Some (Str "") else ct !! k
    | None => ct !! k
    end.
Proof. rewrite blankSlots_foldl. apply lookup_foldl_blankSlot, NoDup_slotKeys. Qed.

Lemma slotOf_Some_elem k l p : slotOf k l = Some p → p ∈ l.
Proof.
  induction l as [|q l IH]; [done|]. simpl. case_bool_decide.
  - intros [= ->]. by left.
  - intros ?%IH. by right.
Qed.

Lemma blank_test_stable (vc vs : value) :
  let b := negb (truthy vc) || negb (truthy vs) in
  negb (truthy (if b then Str "" else vc)) || negb (truthy (if b then Str "" else vs)) = b.
Proof.
  destruct (truthy vc) eqn:Hc, (truthy vs) eqn:Hs; simpl; [|done..].
  by rewrite Hc, Hs.
Qed.

(** The test of a slot gives the same answer after the six blanking steps
    as before them. *)
Lemma slotBlanked_blankSlots ct p :
  p ∈ slots →
  slotBlanked (Actions.blankSlots ct) p.1 p.2 = slotBlanked ct p.1 p.2.
Proof.
  intros Hp. unfold slots in Hp.
  repeat (apply elem_of_cons in Hp as [->|Hp]); [..|by apply elem_of_nil in Hp];
    cbn [fst snd]; unfold slotBlanked at 1;
    (erewrite !get_blankSlots_slot by (vm_compute; reflexivity));
    apply blank_test_stable.
Qed.

(** X8.  Blanking the slots is idempotent: applied to its own result, the
    six [if]s change nothing. *)
Theorem blankSlots_idempotent (ct : object) :
  Actions.blankSlots (Actions.blankSlots ct) = Actions.blankSlots ct.
Proof.
  apply map_eq. intros k. rewrite (lookup_blankSlots (Actions.blankSlots ct)).
  destruct (slotOf k slots) as [p|] eqn:Hp; [|done].
  rewrite slotBlanked_blankSlots by (by eapply slotOf_Some_elem).
  rewrite lookup_blankSlots, Hp. by destruct (slotBlanked ct p.1 p.2).
Qed.

(** X9.  Blanking touches the twelve slot properties only: every other
    property, present or missing, is left as it is; no property is removed;
    and a property of the result either is the one of the input or is a slot
    property holding the empty string. *)
Theorem blankSlots_frame (ct : object) :
  (∀ k, k ∉ slotKeys slots → Actions.blankSlots ct !! k = ct !! k)
  ∧ dom ct ⊆ dom (Actions.blankSlots ct)
  ∧ (∀ k v, Actions.blankSlots ct !! k = Some v →
       ct !! k = Some v ∨ (k ∈ slotKeys slots ∧ v = Str "")).
Proof.
  repeat split.
  - intros k Hk. by rewrite lookup_blankSlots, slotOf_None.
  - intros k [v Hv]%elem_of_dom. apply elem_of_dom. rewrite lookup_blankSlots.
    destruct (slotOf k slots) as [p|]; [|by exists v].
    destruct (slotBlanked ct p.1 p.2); [by eexists | by exists v].
  - intros k v. rewrite lookup_blankSlots.
    destruct (slotOf k slots) as [p|] eqn:Hp; [|by left].
    destruct (slotBlanked ct p.1 p.2); [|by left].
    intros [= <-]. right. split; [|done].
    apply slotOf_Some in Hp as ([-> | ->] & ? & ?); done.
Qed.

Lemma blankSlots_frame_witness :
  Actions.blankSlots (Actions.configTemp exampleSlots) !! "generalProgram"
  = Actions.configTemp exampleSlots !! "generalProgram".
Proof.
  apply (proj1 (blankSlots_frame (Actions.configTemp exampleSlots)) "generalProgram").
  apply (bool_decide_unpack _). vm_compute. exact I.
Defined.

(** ** Further properties of the reducers *)

Section ReducerRuns.
Context {actionType : Type} `{EqDecision actionType}.
Variables SET_JSON_CONFIG SET_PYTHON_CONFIG : actionType.
Variable env : Reducers.environment.

Local Abbreviation jsonConfig :=
  (Reducers.jsonConfig SET_JSON_CONFIG env).
Local Abbreviation pythonConfig := (Reducers.pythonConfig SET_PYTHON_CONFIG).
Local Abbreviation jsonConfigDefaults :=
  (Reducers.jsonConfigDefaults env).

Lemma foldl_jsonConfig_others state (l : list (action actionType)) :
  Forall (λ b, type b ≠ SET_JSON_CONFIG) l → state ≠ DUndefined →
  foldl jsonConfig state l = state.
Proof.
  intros Hl. revert state. induction Hl as [|b l Hb _ IH]; intros state Hs; [done|].
  simpl. unfold Reducers.jsonConfig at 2. rewrite decide_False by done.
  destruct state; [done|by apply IH..].
Qed.

Lemma foldl_pythonConfig_others state (l : list (action actionType)) :
  Forall (λ b, type b ≠ SET_PYTHON_CONFIG) l → state ≠ DUndefined →
  foldl pythonConfig state l = state.
Proof.
  intros Hl. revert state. induction Hl as [|b l Hb _ IH]; intros state Hs; [done|].
  simpl. unfold Reducers.pythonConfig at 2. rewrite decide_False by done.
  destruct state; [done|by apply IH..].
Qed.

(** X10.  Over a run of actions each reducer keeps the config of the last
    action of its own type, provided that config is not [undefined]: what
    came before that action, the state included, is forgotten, and the actions
    after it are ignored.  A run without an action of its type returns the
    state it started from. *)
Theorem reducers_last_set_wins (state : data) (before after : list (action actionType))
    (a : action actionType) :
  config a ≠ DUndefined →
  (type a = SET_JSON_CONFIG → Forall (λ b, type b ≠ SET_JSON_CONFIG) after →
   foldl jsonConfig state (before ++ a :: after) = config a)
  ∧ (type a = SET_PYTHON_CONFIG → Forall (λ b, type b ≠ SET_PYTHON_CONFIG) after →
     foldl pythonConfig state (before ++ a :: after) = config a)
  ∧ (state ≠ DUndefined → Forall (λ b, type b ≠ SET_JSON_CONFIG) after →
     foldl jsonConfig state after = state)
  ∧ (state ≠ DUndefined → Forall (λ b, type b ≠ SET_PYTHON_CONFIG) after →
     foldl pythonConfig state after = state).
Proof.
  intros Hc. repeat split.
  - intros Ha Hafter. rewrite foldl_app. simpl.
    unfold Reducers.jsonConfig at 2. rewrite decide_True by done.
    by apply foldl_jsonConfig_others.
  - intros Ha Hafter. rewrite foldl_app. simpl.
    unfold Reducers.pythonConfig at 2. rewrite decide_True by done.
    by apply foldl_pythonConfig_others.
  - intros Hs Hafter. by apply foldl_jsonConfig_others.
  - intros Hs Hafter. by apply foldl_pythonConfig_others.
Qed.

(** X11.  When the two action types differ, the two containers do not
    interfere: what [setPythonConfig] dispatches leaves a state of
    [jsonConfig] as it is, and what [setJsonConfig] dispatches leaves a state
    of [pythonConfig] as it is. *)
Theorem reducers_independent (state : data) (config : object) :
  SET_JSON_CONFIG ≠ SET_PYTHON_CONFIG →
  state ≠ DUndefined →
  timesOk config = true →
  Actions.setPythonConfig SET_PYTHON_CONFIG config (jsonConfig state) = Return state
  ∧ Actions.setJsonConfig SET_JSON_CONFIG config (pythonConfig state) = state.
Proof.
  intros Hne Hs Hok. split.
  - rewrite setPythonConfig_spec, Hok. f_equal.
    unfold Reducers.jsonConfig, Actions.setPythonConfigSuccess. simpl.
    rewrite decide_False by done. by destruct state.
  - unfold Actions.setJsonConfig, Reducers.pythonConfig, Actions.setJsonConfigSuccess.
    simpl. rewrite decide_False by done. by destruct state.
Qed.

(** X12.  A set-action that carries [undefined] does not stick: the reducer
    stores [undefined], and at the next action of another type the default
    parameter puts the initial value back, the default ConfigRecord
    respectively the empty array. *)
Theorem undefined_config_resets (state : data) (b : action actionType) :
  (type b ≠ SET_JSON_CONFIG →
   jsonConfig (jsonConfig state (mkAction SET_JSON_CONFIG DUndefined)) b
   = DRecord jsonConfigDefaults)
  ∧ (type b ≠ SET_PYTHON_CONFIG →
     pythonConfig (pythonConfig state (mkAction SET_PYTHON_CONFIG DUndefined)) b
     = DLines []).
Proof.
  split; intros Hb.
  - unfold Reducers.jsonConfig. cbn [type config].
    by rewrite (decide_True (P := SET_JSON_CONFIG = SET_JSON_CONFIG)), decide_False.
  - unfold Reducers.pythonConfig. cbn [type config].
    by rewrite (decide_True (P := SET_PYTHON_CONFIG = SET_PYTHON_CONFIG)), decide_False.
Qed.

End ReducerRuns.

(** Two set-json actions among actions of other types: the second wins. *)
Lemma reducers_last_set_wins_witness :
  foldl (Reducers.jsonConfig "SET_JSON_CONFIG" exampleEnvironment) DUndefined
    ([mkAction "INIT" DUndefined; mkAction "SET_JSON_CONFIG" (DRecord exampleSlots)]
     ++ mkAction "SET_JSON_CONFIG" (DRecord exampleLBAS)
        :: [mkAction "SET_PYTHON_CONFIG" (DLines [])])
  = DRecord exampleLBAS.
Proof.
  apply (reducers_last_set_wins "SET_JSON_CONFIG" "SET_PYTHON_CONFIG" exampleEnvironment
           DUndefined
           [mkAction "INIT" DUndefined; mkAction "SET_JSON_CONFIG" (DRecord exampleSlots)]
           [mkAction "SET_PYTHON_CONFIG" (DLines [])]
           (mkAction "SET_JSON_CONFIG" (DRecord exampleLBAS))).
  - discriminate.
  - reflexivity.
  - apply Forall_cons. split; [discriminate | apply Forall_nil_2].
Defined.

Lemma reducers_independent_witness :
  Actions.setPythonConfig "SET_PYTHON_CONFIG" exampleDefaults
    (Reducers.jsonConfig "SET_JSON_CONFIG" exampleEnvironment (DRecord exampleSlots))
  = Return (DRecord exampleSlots)
  ∧ Actions.setJsonConfig "SET_JSON_CONFIG" exampleDefaults
      (Reducers.pythonConfig "SET_PYTHON_CONFIG" (DLines ["[General]"]))
    = DLines ["[General]"].
Proof.
  split.
  - apply (reducers_independent "SET_JSON_CONFIG" "SET_PYTHON_CONFIG" exampleEnvironment
             (DRecord exampleSlots) exampleDefaults);
      [discriminate | discriminate | vm_compute; reflexivity].
  - apply (reducers_independent "SET_JSON_CONFIG" "SET_PYTHON_CONFIG" exampleEnvironment
             (DLines ["[General]"]) exampleDefaults);
      [discriminate | discriminate | vm_compute; reflexivity].
Defined.

Lemma undefined_config_resets_witness :
  Reducers.pythonConfig "SET_PYTHON_CONFIG"
    (Reducers.pythonConfig "SET_PYTHON_CONFIG" (DLines ["[General]"])
       (mkAction "SET_PYTHON_CONFIG" DUndefined))
    (mkAction "SET_JSON_CONFIG" (DRecord exampleSlots))
  = DLines [].
Proof.
  apply (undefined_config_resets "SET_JSON_CONFIG" "SET_PYTHON_CONFIG" exampleEnvironment
           (DLines ["[General]"]) (mkAction "SET_JSON_CONFIG" (DRecord exampleSlots))).
  discriminate.
Defined.

(** ** The two files together *)

Lemma serialized_defaults (env : Reducers.environment) :
  serialized (Reducers.jsonConfigDefaults env)
  = defaultLines (Reducers.defaultJSTOffset env)
      (timeText (DateObj (Reducers.defaultSleepStartTime env)))
      (timeText (DateObj (Reducers.defaultExpeditionSleepStartTime env)))
      (timeText (DateObj (Reducers.defaultCombatSleepStartTime env)))
      (timeText (DateObj (Reducers.defaultRepairTimeLimit env))).
Proof.
  unfold serialized, Actions.pythonConfig, Actions.lbasNodes, and_, Actions.combatOptions.
  cbv beta zeta.
  repeat match goal with
         | |- context [get (Actions.blankSlots ?ct) ?k] =>
             rewrite (get_blankSlots ct k);
             let r := eval vm_compute in (slotOf k slots) in
             change (slotOf k slots) with r; cbv beta iota; cbn [fst snd]
         end.
  unfold slotBlanked. rewrite !get_configTemp by discriminate.
  repeat match goal with
         | |- context [get (Reducers.jsonConfigDefaults ?e) ?k] =>
             let r := eval vm_compute in (get (Reducers.jsonConfigDefaults e) k) in
             change (get (Reducers.jsonConfigDefaults e) k) with r
         end.
  reflexivity.
Qed.

Lemma timeText_clockTime d hour minute :
  clockTime d hour minute → timeText (DateObj d) = HHMM hour minute.
Proof.
  intros (Hh & Hm & Hhour & Hminute). unfold timeText, HHMM.
  rewrite Hh, Hm, !padStart_twoDigits by lia. done.
Qed.

(** X13.  The initial state of [jsonConfig] can always be exported: in every
    browser environment [setPythonConfig] on the default ConfigRecord returns
    normally.  When the four default Dates read a time on the 24-hour clock,
    what it dispatches, hence what [pythonConfig] then holds, is the default
    config file with the string form of the environment's JST offset and
    those four times as HHMM, no LBAS nodes, no misc option and six blank
    slots. *)
Theorem defaults_serialize {actionType} `{EqDecision actionType}
    (SET_PYTHON_CONFIG : actionType) (env : Reducers.environment) (state : data) :
  (∃ lines, dispatches SET_PYTHON_CONFIG (Reducers.jsonConfigDefaults env) lines)
  ∧ ∀ h1 m1 h2 m2 h3 m3 h4 m4,
      clockTime (Reducers.defaultSleepStartTime env) h1 m1 →
      clockTime (Reducers.defaultExpeditionSleepStartTime env) h2 m2 →
      clockTime (Reducers.defaultCombatSleepStartTime env) h3 m3 →
      clockTime (Reducers.defaultRepairTimeLimit env) h4 m4 →
      let lines :=
        defaultLines (Reducers.defaultJSTOffset env)
          (HHMM h1 m1) (HHMM h2 m2) (HHMM h3 m3) (HHMM h4 m4) in
      dispatches SET_PYTHON_CONFIG (Reducers.jsonConfigDefaults env) lines
      ∧ Actions.setPythonConfig SET_PYTHON_CONFIG (Reducers.jsonConfigDefaults env)
          (Reducers.pythonConfig SET_PYTHON_CONFIG state)
        = Return (DLines lines).
Proof.
  assert (timesOk (Reducers.jsonConfigDefaults env) = true) as Hok
    by (vm_compute; reflexivity).
  split; [exists (serialized (Reducers.jsonConfigDefaults env));
          by apply dispatches_serialized|].
  intros h1 m1 h2 m2 h3 m3 h4 m4 H1 H2 H3 H4 lines. subst lines.
  rewrite <- (timeText_clockTime _ _ _ H1), <- (timeText_clockTime _ _ _ H2),
    <- (timeText_clockTime _ _ _ H3), <- (timeText_clockTime _ _ _ H4),
    <- serialized_defaults.
  split; [by apply dispatches_serialized|].
  by rewrite pythonConfig_receives_serialized.
Qed.

(** On an ordinary day in the JST zone the times are 0000, 0000, 0000 and
    0030; where local midnight is skipped they are 0100, 0100, 0100 and
    0130, and the offset of a half-hour zone prints with its fraction. *)
Lemma defaults_serialize_witness :
  dispatches "SET_PYTHON_CONFIG" (Reducers.jsonConfigDefaults exampleEnvironment)
    (defaultLines (Int 0) "0000" "0000" "0000" "0030")
  ∧ dispatches "SET_PYTHON_CONFIG" (Reducers.jsonConfigDefaults exampleSkippedMidnight)
      (defaultLines (Finite true 35 1) "0100" "0100" "0100" "0130").
Proof.
  split.
  - apply (proj2 (defaults_serialize "SET_PYTHON_CONFIG" exampleEnvironment DUndefined)
             0 0 0 0 0 0 0 30)%Z; repeat split; (reflexivity || lia).
  - apply (proj2 (defaults_serialize "SET_PYTHON_CONFIG" exampleSkippedMidnight DUndefined)
             1 0 1 0 1 0 1 30)%Z; repeat split; (reflexivity || lia).
Defined.
